(** * Ares Frontier: resource state and history ledger

    A shallow embedding of the resource service
    ([services/resource.service.js]), of the two scheduled jobs
    ([cron/resource.cron.js]) and of the quantity-update controller
    ([controllers/resource.controller.js]).

    The relational store is a record of three tables, each a list of rows
    in insertion order.  Every service is a function from the store to a
    result and a new store.  Column values are integers (the columns
    [quantity] and [stock] are INTEGER columns) and instants are integers
    counting the milliseconds since the epoch.  The numbers computed by
    the statistics service are binary64 floating-point numbers, as the
    numbers of JavaScript are.  The time zone of the server and the order
    in which the store returns the rows that an ORDER BY leaves tied are
    parameters of the development. *)

From Stdlib Require Import Floats.
From Stdlib Require Import ZArith QArith String List Bool Lia.
From Stdlib Require Import Sorting.Sorted Sorting.Permutation.
Import ListNotations.

Open Scope Z_scope.

Set Default Proof Using "Type".

(** ** Values received from a request body *)

(** A field of a JSON request body as the services see it: missing
    ([undefined]), [null], or a number. *)
Inductive jsval : Type :=
| JUndefined
| JNull
| JNum (n : Z).

(** [!v] of JavaScript: [undefined], [null] and [0] are falsy. *)
Definition js_not (v : jsval) : bool :=
  match v with
  | JUndefined | JNull => true
  | JNum n => n =? 0
  end.

(** [v < 0] of JavaScript.  [undefined] converts to NaN, for which every
    comparison is false; [null] converts to [0]. *)
Definition js_lt_zero (v : jsval) : bool :=
  match v with
  | JUndefined | JNull => false
  | JNum n => n <? 0
  end.

Definition is_undefined (v : jsval) : bool :=
  match v with JUndefined => true | _ => false end.

Definition is_null (v : jsval) : bool :=
  match v with JNull => true | _ => false end.

(** The guard [quantity === undefined || quantity === null || quantity < 0]
    shared by [updateResourceQuantityService] and [createResourceService]. *)
Definition invalid_quantity (quantity : jsval) : bool :=
  is_undefined quantity || is_null quantity || js_lt_zero quantity.

(** The number carried by a value that passed a guard. *)
Definition js_number (v : jsval) : Z :=
  match v with
  | JNum n => n
  | _ => 0
  end.

(** ** Rows of the three tables *)

Module ResourceData.
Record t : Type := mk
  { id : Z;
    name : string;
    category : string }.
End ResourceData.

Module Resource.
Record t : Type := mk
  { id : Z;
    quantity : Z;
    resourceDataId : Z }.
End Resource.

Inductive ChangeType : Type := increase | decrease | update.

Module ChangeHistory.
(** Modelled from the spec: the model file [models/changeHistory.js] is
    absent from the sources.  The columns are those the services
    write ([stock], [resourceId], [changeType]) and read ([createdAt]);
    the spec has the entry written by a quantity update tagged with a
    change direction, so the row keeps [changeType], which is absent
    ([None]) on rows written without it. *)
Record t : Type := mk
  { id : Z;
    stock : Z;
    resourceId : Z;
    changeType : option ChangeType;
    createdAt : Z }.
End ChangeHistory.

(** The store. *)
Record db : Type := mkdb
  { resource_data : list ResourceData.t;
    resources : list Resource.t;
    change_history : list ChangeHistory.t }.

(** A [Resource] row loaded with [include: [{ model: ResourceData, as:
    'resourceData' }]]: a left join, so [resourceData] is [null] when the
    catalog has no row for [resourceDataId]. *)
Module Loaded.
Record t : Type := mk
  { id : Z;
    quantity : Z;
    resourceDataId : Z;
    resourceData : option ResourceData.t }.
End Loaded.

(** ** Level policy *)

Record Levels : Type := mkLevels
  { lv_minimumLevel : Z;
    lv_criticalLevel : Z;
    lv_maximumLevel : Z;
    lv_unit : string }.

Inductive Status : Type := critical | low | normal.

(** The enriched view returned by the services. *)
Module Enriched.
Record t : Type := mk
  { id : Z;
    quantity : Z;
    resourceDataId : Z;
    resourceData : ResourceData.t;
    minimumLevel : Z;
    criticalLevel : Z;
    maximumLevel : Z;
    unit : string;
    status : Status }.
End Enriched.

(** ** Results *)

Inductive exn : Type :=
| TypeError
| StorageFault
| TransactionFinished.

(** A call either returns or throws. *)
Inductive outcome (A : Type) : Type :=
| Returned (a : A)
| Thrown (e : exn).
Arguments Returned {A} a.
Arguments Thrown {A} e.

(** What a service returns: one of its sentinel strings, or a value. *)
Inductive svc (A : Type) : Type :=
| Sentinel (s : string)
| Value (a : A).
Arguments Sentinel {A} s.
Arguments Value {A} a.

(** ** Queries on the tables *)

Definition findByPk_ResourceData (pk : Z) (d : db) : option ResourceData.t :=
  find (fun rd => ResourceData.id rd =? pk) (resource_data d).

Definition include_resourceData (d : db) (r : Resource.t) : Loaded.t :=
  {| Loaded.id := Resource.id r;
     Loaded.quantity := Resource.quantity r;
     Loaded.resourceDataId := Resource.resourceDataId r;
     Loaded.resourceData := findByPk_ResourceData (Resource.resourceDataId r) d |}.

Definition findByPk_Resource (pk : Z) (d : db) : option Resource.t :=
  find (fun r => Resource.id r =? pk) (resources d).

(** [Resource.findByPk(id, { include: ... })]. *)
Definition findByPk_Resource_include (pk : Z) (d : db) : option Loaded.t :=
  option_map (include_resourceData d) (findByPk_Resource pk d).

(** [Resource.findAll({ include: ... })]. *)
Definition findAll_Resource_include (d : db) : list Loaded.t :=
  map (include_resourceData d) (resources d).

(** [Resource.findOne({ where: { resourceDataId } })]. *)
Definition findOne_Resource_by_resourceDataId (rdid : Z) (d : db)
  : option Resource.t :=
  find (fun r => Resource.resourceDataId r =? rdid) (resources d).

(** ** Writes on the tables *)

(** The primary key given to a new row: the tables have auto-incremented
    keys, so the new key is above every key of the table. *)
Definition next_id (ids : list Z) : Z :=
  1 + fold_right Z.max 0 ids.

(** [Resource.create({ resourceDataId, quantity })]: the new row and the
    store with the row appended. *)
Definition Resource_create (resourceDataId quantity : Z) (d : db)
  : Resource.t * db :=
  let row :=
    {| Resource.id := next_id (map Resource.id (resources d));
       Resource.quantity := quantity;
       Resource.resourceDataId := resourceDataId |} in
  (row,
   {| resource_data := resource_data d;
      resources := resources d ++ [row];
      change_history := change_history d |}).

(** [resource.save()] after [resource.quantity = quantity]: an UPDATE of
    the [quantity] column of the row whose key is [resource.id]. *)
Definition Resource_save (resource : Loaded.t) (d : db) : db :=
  {| resource_data := resource_data d;
     resources :=
       map (fun r =>
              if Resource.id r =? Loaded.id resource
              then {| Resource.id := Resource.id r;
                      Resource.quantity := Loaded.quantity resource;
                      Resource.resourceDataId := Resource.resourceDataId r |}
              else r)
           (resources d);
     change_history := change_history d |}.

(** [ChangeHistory.create({ stock, resourceId, changeType })] at instant
    [now]: [createdAt] is set by the store at insert time. *)
Definition ChangeHistory_create (now : Z) (stock resourceId : Z)
    (changeType : option ChangeType) (d : db) : db :=
  {| resource_data := resource_data d;
     resources := resources d;
     change_history :=
       change_history d ++
       [ {| ChangeHistory.id := next_id (map ChangeHistory.id (change_history d));
            ChangeHistory.stock := stock;
            ChangeHistory.resourceId := resourceId;
            ChangeHistory.changeType := changeType;
            ChangeHistory.createdAt := now |} ] |}.

(** ** Transactions *)

(** A transaction keeps the committed store beside the store its own
    writes have produced so far.  [commit] makes the latter the committed
    one; [rollback] drops it. *)
Record txn : Type := mktxn
  { tx_committed : db;
    tx_working : db;
    tx_finished : bool }.

(** The three requests [updateResourceQuantityService] sends to the store
    inside its transaction.  A fault plan tells which of them the store
    fails. *)
Inductive tx_step : Type := AtSave | AtCreate | AtCommit.

Definition fault_plan : Type := tx_step -> bool.

Definition no_fault : fault_plan := fun _ => false.

(** Computations inside a transaction: they return or throw, and thread
    the transaction. *)
Definition tx (A : Type) : Type := txn -> outcome A * txn.

Definition tx_ret {A : Type} (a : A) : tx A :=
  fun t => (Returned a, t).

Definition tx_throw {A : Type} (e : exn) : tx A :=
  fun t => (Thrown e, t).

Definition tx_bind {A B : Type} (m : tx A) (k : A -> tx B) : tx B :=
  fun t =>
    match m t with
    | (Returned a, t') => k a t'
    | (Thrown e, t') => (Thrown e, t')
    end.

Notation "x <- m ;; k" := (tx_bind m (fun x => k))
  (at level 61, m at next level, right associativity).

(** [try { body } catch (error) { handler }]. *)
Definition try_catch {A : Type} (body : tx A) (handler : exn -> tx A) : tx A :=
  fun t =>
    match body t with
    | (Returned a, t') => (Returned a, t')
    | (Thrown e, t') => handler e t'
    end.

(** [sequelize.transaction()]. *)
Definition sequelize_transaction (d : db) : txn :=
  {| tx_committed := d; tx_working := d; tx_finished := false |}.

(** A write passed [{ transaction }]: it fails when the plan says so, and
    otherwise changes the transaction's own store only. *)
Definition tx_write (faults : fault_plan) (s : tx_step) (w : db -> db)
  : tx unit :=
  fun t =>
    if faults s then (Thrown StorageFault, t)
    else (Returned tt,
          {| tx_committed := tx_committed t;
             tx_working := w (tx_working t);
             tx_finished := tx_finished t |}).

(** [transaction.commit()].  The transaction is finished once [commit]
    has been called, whether the store accepted the commit or failed it;
    a commit the store fails leaves the committed store as it was. *)
Definition tx_commit (faults : fault_plan) : tx unit :=
  fun t =>
    if faults AtCommit
    then (Thrown StorageFault,
          {| tx_committed := tx_committed t;
             tx_working := tx_working t;
             tx_finished := true |})
    else (Returned tt,
          {| tx_committed := tx_working t;
             tx_working := tx_working t;
             tx_finished := true |}).

(** [transaction.rollback()]: refused on a transaction that is finished. *)
Definition tx_rollback : tx unit :=
  fun t =>
    if tx_finished t then (Thrown TransactionFinished, t)
    else (Returned tt,
          {| tx_committed := tx_committed t;
             tx_working := tx_committed t;
             tx_finished := true |}).

(** A computation that does not touch the store. *)
Definition tx_lift {A : Type} (o : outcome A) : tx A :=
  fun t => (o, t).

(** ** History ledger *)

(** A store that evaluates [ORDER BY "createdAt"] by a stable sort of the
    rows in insertion order: one of the orders the queries allow, used in
    the checks on the reference deployment. *)
Fixpoint insert_ASC (h : ChangeHistory.t) (l : list ChangeHistory.t)
  : list ChangeHistory.t :=
  match l with
  | [] => [h]
  | h' :: l' =>
    if ChangeHistory.createdAt h <=? ChangeHistory.createdAt h'
    then h :: h' :: l'
    else h' :: insert_ASC h l'
  end.

Definition stable_order_ASC (l : list ChangeHistory.t)
  : list ChangeHistory.t :=
  fold_right insert_ASC [] l.

Definition stable_order_DESC (l : list ChangeHistory.t)
  : list ChangeHistory.t :=
  rev (stable_order_ASC l).

(** A store that returns newest first, and the rows with the same
    [createdAt] in the order it holds them, the older row first: another
    of the orders the queries allow. *)
Definition held_order_DESC (l : list ChangeHistory.t)
  : list ChangeHistory.t :=
  rev (stable_order_ASC (rev l)).

(** A [ChangeHistory] row loaded with its [resourceData]. *)
Module HistoryRow.
Record t : Type := mk
  { entry : ChangeHistory.t;
    resourceData : option ResourceData.t }.
End HistoryRow.

Definition include_history_resourceData (d : db) (h : ChangeHistory.t)
  : HistoryRow.t :=
  {| HistoryRow.entry := h;
     HistoryRow.resourceData :=
       findByPk_ResourceData (ChangeHistory.resourceId h) d |}.

(** The default value of the parameter [limit]. *)
Definition default_limit : nat := 100%nat.

(** ** Dates *)

(** The abstract operations of the language standard on time values,
    which count the milliseconds since the epoch. *)
Definition msPerDay : Z := 86400000.
Definition msPerHour : Z := 3600000.
Definition msPerMinute : Z := 60000.
Definition msPerSecond : Z := 1000.

Definition Day (t : Z) : Z := t / msPerDay.
Definition TimeWithinDay (t : Z) : Z := t mod msPerDay.
Definition HourFromTime (t : Z) : Z := (t / msPerHour) mod 24.
Definition MinFromTime (t : Z) : Z := (t / msPerMinute) mod 60.
Definition SecFromTime (t : Z) : Z := (t / msPerSecond) mod 60.
Definition msFromTime (t : Z) : Z := t mod msPerSecond.

Definition MakeTime (hour min sec ms : Z) : Z :=
  hour * msPerHour + min * msPerMinute + sec * msPerSecond + ms.

Definition MakeDate (day time : Z) : Z := day * msPerDay + time.

(** ** Numbers *)

(** The number that an integer of the store becomes in JavaScript: the
    binary64 value of the integer, which is the integer itself below 2^53
    in magnitude, where the values of the INTEGER columns and the lengths
    of the query results lie. *)
Definition number_of_Z (z : Z) : float :=
  if z <? 0 then PrimFloat.opp (PrimFloat.of_uint63 (Uint63.of_Z (- z)))
  else PrimFloat.of_uint63 (Uint63.of_Z z).

(** The division [a / b] by a number that is an integer.  A division by
    zero is made visible: it gives [None], where JavaScript would give an
    infinity or NaN. *)
Definition js_div (a : float) (b : Z) : option float :=
  if b =? 0 then None else Some (PrimFloat.div a (number_of_Z b)).

(** [Math.round]: the integer nearest to the exact value of [x], a half
    going up; zeros, infinities, NaN and the numbers that have no
    fractional part are returned as they are, and a negative [x] that
    rounds to zero gives the negative zero. *)
Definition Math_round (x : float) : float :=
  match Prim2SF x with
  | S754_finite s m e =>
    if 0 <=? e then x
    else
      let k := ((if s then Z.neg m else Z.pos m) + 2 ^ (- e - 1)) / 2 ^ (- e) in
      if (k =? 0) && s then PrimFloat.neg_zero else number_of_Z k
  | _ => x
  end.

Section Store.

(** The offset of the server's local time from UTC, in milliseconds:
    [LocalTZA t true] at the UTC instant [t], [LocalTZA t false] at the
    local time [t].  It is the time zone of the process that runs the
    server, and changes with daylight saving time. *)
Variable LocalTZA : Z -> bool -> Z.

Definition LocalTime (t : Z) : Z := t + LocalTZA t true.

Definition UTC (t : Z) : Z := t - LocalTZA t false.

(** [date.getHours()] and [date.setHours(hour)] on a date whose time value
    is [tv]; the result of the latter is the new time value. *)
Definition getHours (tv : Z) : Z := HourFromTime (LocalTime tv).

Definition setHours (tv hour : Z) : Z :=
  let t := LocalTime tv in
  UTC (MakeDate (Day t)
         (MakeTime hour (MinFromTime t) (SecFromTime t) (msFromTime t))).

(** [date.getMinutes()] and [date.setMinutes(min)]. *)
Definition getMinutes (tv : Z) : Z := MinFromTime (LocalTime tv).

Definition setMinutes (tv min : Z) : Z :=
  let t := LocalTime tv in
  UTC (MakeDate (Day t)
         (MakeTime (HourFromTime t) min (SecFromTime t) (msFromTime t))).

(** [date.setDate(date.getDate() - days)].  [setDate(dt)] rebuilds the
    date from the year and the month of the local time [t], the day of the
    month [dt] and the time within the day of [t].  A day of the month is
    turned into a day number by counting from the first day of that month,
    so for [dt = DateFromTime(t) - days] the day number is
    [Day(t) - days], in every month. *)
Definition setDate_back (tv days : Z) : Z :=
  let t := LocalTime tv in
  UTC (MakeDate (Day t - days) (TimeWithinDay t)).

(** [ORDER BY "createdAt" ASC] and [ORDER BY "createdAt" DESC] as the
    store evaluates them on the rows a query selects.  The queries give
    this one sort key, so the order of rows with the same [createdAt] is
    the store's choice. *)
Variable order_createdAt_ASC : list ChangeHistory.t -> list ChangeHistory.t.
Variable order_createdAt_DESC : list ChangeHistory.t -> list ChangeHistory.t.

(** [getResourceHistoryService(resourceId, limit = 100)]; [limit] is
    [None] when the caller passes no limit. *)
Definition getResourceHistoryService (resourceId : Z) (limit : option nat)
    (d : db) : svc (list HistoryRow.t) :=
  let limit := match limit with Some n => n | None => default_limit end in
  match findByPk_ResourceData resourceId d with
  | None => Sentinel "RESOURCE_NOT_FOUND"
  | Some resourceData =>
    let history :=
      firstn limit
        (order_createdAt_DESC
           (filter (fun h => ChangeHistory.resourceId h =? resourceId)
                   (change_history d))) in
    Value (map (include_history_resourceData d) history)
  end.

(** ** Statistics *)

Inductive Trend : Type := stable | increasing | decreasing.

(** The [stats] object.  The object returned for an empty window has no
    [percentageChange] and no [timeRange].  [min], [max] and [current] are
    stocks of rows, taken as they are. *)
Record Stats : Type := mkStats
  { average : float;
    min : Z;
    max : Z;
    current : Z;
    trend : Trend;
    percentageChange : option float;
    totalRecords : nat;
    timeRange : option string }.

Record StatsResult : Type := mkStatsResult
  { sr_resourceData : ResourceData.t;
    sr_stats : Stats }.

(** [Math.min(...values)] and [Math.max(...values)] on a list that is not
    empty. *)
Definition Math_min (values : list Z) : Z :=
  match values with
  | [] => 0
  | v :: values' => fold_left Z.min values' v
  end.

Definition Math_max (values : list Z) : Z :=
  match values with
  | [] => 0
  | v :: values' => fold_left Z.max values' v
  end.

(** The rows the statistics query selects for one resource type, oldest
    first. *)
Definition stats_window (now resourceId : Z) (d : db) : list ChangeHistory.t :=
  let oneDayAgo := setHours now (getHours now - 24) in
  order_createdAt_ASC
    (filter (fun h => (ChangeHistory.resourceId h =? resourceId)
                      && (ChangeHistory.createdAt h >=? oneDayAgo))
            (change_history d)).

(** [getHistoryStatsService(resourceId)] at instant [now].  The result is
    [None] when a division by zero occurs. *)
Definition getHistoryStatsService (now resourceId : Z) (d : db)
  : option (svc StatsResult) :=
  match findByPk_ResourceData resourceId d with
  | None => Some (Sentinel "RESOURCE_NOT_FOUND")
  | Some resourceData =>
    let history := stats_window now resourceId d in
    if Nat.eqb (length history) 0 then
      Some (Value
        {| sr_resourceData := resourceData;
           sr_stats :=
             {| average := 0; min := 0; max := 0; current := 0;
                trend := stable; percentageChange := None;
                totalRecords := 0; timeRange := None |} |})
    else
      let values := map ChangeHistory.stock history in
      match js_div (fold_left (fun a b => PrimFloat.add a (number_of_Z b))
                      values 0%float)
                   (Z.of_nat (length values)) with
      | None => None
      | Some average =>
        let min := Math_min values in
        let max := Math_max values in
        let current := nth (length values - 1) values 0 in
        let firstValue := nth 0 values 0 in
        let change :=
          PrimFloat.sub (number_of_Z current) (number_of_Z firstValue) in
        match (if negb (firstValue =? 0)
               then option_map (fun r => PrimFloat.mul r 100)
                      (js_div change firstValue)
               else Some 0%float) with
        | None => None
        | Some percentageChange =>
          let trend :=
            if PrimFloat.ltb 5 percentageChange then increasing
            else if PrimFloat.ltb percentageChange (-5) then decreasing
            else stable in
          Some (Value
            {| sr_resourceData := resourceData;
               sr_stats :=
                 {| average := Math_round average;
                    min := min;
                    max := max;
                    current := current;
                    trend := trend;
                    percentageChange :=
                      Some (PrimFloat.div
                              (Math_round (PrimFloat.mul percentageChange 100))
                              100);
                    totalRecords := length history;
                    timeRange := Some "24h"%string |} |})
        end
      end
  end.

(** ** Broadcasts *)

(** A resource as it travels in a broadcast: the plain attributes of a
    loaded row ([r.toJSON()]) or an enriched view. *)
Inductive WireResource : Type :=
| Plain (r : Loaded.t)
| WithLevels (e : Enriched.t).

(** [io.emit(event, { resources, count, timestamp })]; [count] is absent
    from the payload sent by the controller. *)
Record Emit : Type := mkEmit
  { em_event : string;
    em_resources : list WireResource;
    em_count : option nat;
    em_timestamp : Z }.

(** ** Scheduled jobs *)

(** One firing of the job of [startResourceMonitoringCron(io)].  [io] tells
    whether a socket server was given; [now] is the instant of the
    inserts and [timestamp] the instant read after them. *)
Definition resourceMonitoringTick (io : bool) (now timestamp : Z) (d : db)
  : db * list Emit :=
  let resources := findAll_Resource_include d in
  if Nat.eqb (length resources) 0 then (d, [])
  else
    let d' :=
      fold_left
        (fun acc resource =>
           ChangeHistory_create now (Loaded.quantity resource)
             (Loaded.resourceDataId resource) None acc)
        resources d in
    if io then
      let plainResources := map Plain resources in
      (d',
       [ {| em_event := "resources:update";
            em_resources := plainResources;
            em_count := Some (length plainResources);
            em_timestamp := timestamp |} ])
    else (d', []).

(** One firing of the job of [startHistoryCleanupCron()] at instant
    [now]: the number of rows deleted, which the job logs, and the store
    after the delete. *)
Definition historyCleanupTick (now : Z) (d : db) : nat * db :=
  let thirtyDaysAgo := setDate_back now 30 in
  let old h := ChangeHistory.createdAt h <? thirtyDaysAgo in
  (length (filter old (change_history d)),
   {| resource_data := resource_data d;
      resources := resources d;
      change_history := filter (fun h => negb (old h)) (change_history d) |}).

(** ** Manual history records and recent history *)

Record HistoryData : Type := mkHistoryData
  { hd_stock : jsval;
    hd_resourceId : jsval }.

(** The row [ChangeHistory.create] inserts and returns. *)
Definition ChangeHistory_new_row (now : Z) (stock resourceId : Z)
    (changeType : option ChangeType) (d : db) : ChangeHistory.t :=
  {| ChangeHistory.id := next_id (map ChangeHistory.id (change_history d));
     ChangeHistory.stock := stock;
     ChangeHistory.resourceId := resourceId;
     ChangeHistory.changeType := changeType;
     ChangeHistory.createdAt := now |}.

(** [createChangeHistoryService(data)] at instant [now]. *)
Definition createChangeHistoryService (now : Z) (data : HistoryData) (d : db)
  : svc ChangeHistory.t * db :=
  if js_not (hd_stock data) || js_lt_zero (hd_stock data) then
    (Sentinel "INVALID_STOCK", d)
  else if js_not (hd_resourceId data) then
    (Sentinel "RESOURCE_ID_REQUIRED", d)
  else
    match findByPk_ResourceData (js_number (hd_resourceId data)) d with
    | None => (Sentinel "RESOURCE_NOT_FOUND", d)
    | Some resourceData =>
      (Value (ChangeHistory_new_row now (js_number (hd_stock data))
                (js_number (hd_resourceId data)) None d),
       ChangeHistory_create now (js_number (hd_stock data))
         (js_number (hd_resourceId data)) None d)
    end.

(** [getRecentHistoryService(minutes = 60)] at instant [now]; [minutes] is
    [None] when the caller passes none. *)
Definition getRecentHistoryService (now : Z) (minutes : option Z) (d : db)
  : list HistoryRow.t :=
  let minutes := match minutes with Some m => m | None => 60 end in
  let timeAgo := setMinutes now (getMinutes now - minutes) in
  let history :=
    order_createdAt_DESC
      (filter (fun h => ChangeHistory.createdAt h >=? timeAgo)
              (change_history d)) in
  map (include_history_resourceData d) history.

(** ** Services that apply the level policy *)

(** [getLevelsByCategory] of [constants/resource.constants.js], a file
    that is absent from the sources: a lookup from the category string to
    the levels of that category.  [None] stands for a category the table
    does not know, on which reading [levels.minimumLevel] throws. *)
Variable getLevelsByCategory : string -> option Levels.

(** The conditional expression computing [status]. *)
Definition status_of (quantity : Z) (levels : Levels) : Status :=
  if quantity <=? lv_criticalLevel levels then critical
  else if quantity <=? lv_minimumLevel levels then low
  else normal.

Definition enrichResourceWithLevels (resource : Loaded.t) : outcome Enriched.t :=
  match Loaded.resourceData resource with
  | None => Thrown TypeError
  | Some resourceData =>
    match getLevelsByCategory (ResourceData.category resourceData) with
    | None => Thrown TypeError
    | Some levels =>
      Returned
        {| Enriched.id := Loaded.id resource;
           Enriched.quantity := Loaded.quantity resource;
           Enriched.resourceDataId := Loaded.resourceDataId resource;
           Enriched.resourceData :=
             {| ResourceData.id := ResourceData.id resourceData;
                ResourceData.name := ResourceData.name resourceData;
                ResourceData.category := ResourceData.category resourceData |};
           Enriched.minimumLevel := lv_minimumLevel levels;
           Enriched.criticalLevel := lv_criticalLevel levels;
           Enriched.maximumLevel := lv_maximumLevel levels;
           Enriched.unit := lv_unit levels;
           Enriched.status := status_of (Loaded.quantity resource) levels |}
    end
  end.

(** [getAllResourcesService]. *)
Fixpoint map_outcome {A B : Type} (f : A -> outcome B) (l : list A)
  : outcome (list B) :=
  match l with
  | [] => Returned []
  | a :: l' =>
    match f a with
    | Thrown e => Thrown e
    | Returned b =>
      match map_outcome f l' with
      | Thrown e => Thrown e
      | Returned bs => Returned (b :: bs)
      end
    end
  end.

Definition getAllResourcesService (d : db) : outcome (list Enriched.t) :=
  map_outcome enrichResourceWithLevels (findAll_Resource_include d).

(** ** Quantity update *)

Definition set_quantity (resource : Loaded.t) (quantity : Z) : Loaded.t :=
  {| Loaded.id := Loaded.id resource;
     Loaded.quantity := quantity;
     Loaded.resourceDataId := Loaded.resourceDataId resource;
     Loaded.resourceData := Loaded.resourceData resource |}.

(** [quantity > oldQuantity ? 'increase' : quantity < oldQuantity ?
    'decrease' : 'update']. *)
Definition changeType_of (quantity oldQuantity : Z) : ChangeType :=
  if quantity >? oldQuantity then increase
  else if quantity <? oldQuantity then decrease
  else update.

Definition updateResourceQuantityService (faults : fault_plan) (now : Z)
    (id : Z) (quantity : jsval) (d : db) : outcome (svc Enriched.t) * db :=
  if invalid_quantity quantity then
    (Returned (Sentinel "INVALID_QUANTITY"), d)
  else
    match findByPk_Resource_include id d with
    | None => (Returned (Sentinel "RESOURCE_NOT_FOUND"), d)
    | Some resource =>
      let transaction := sequelize_transaction d in
      let (result, t) :=
        try_catch
          (let oldQuantity := Loaded.quantity resource in
           let resource := set_quantity resource (js_number quantity) in
           _ <- tx_write faults AtSave (Resource_save resource) ;;
           _ <- tx_write faults AtCreate
                  (ChangeHistory_create now
                     (js_number quantity)
                     (Loaded.resourceDataId resource)
                     (Some (changeType_of (js_number quantity) oldQuantity))) ;;
           _ <- tx_commit faults ;;
           enriched <- tx_lift (enrichResourceWithLevels resource) ;;
           tx_ret (Value enriched))
          (fun error =>
             _ <- tx_rollback ;;
             tx_throw error)
          transaction in
      (result, tx_committed t)
    end.

(** ** Resource creation *)

Record CreateData : Type := mkCreateData
  { cd_resourceDataId : jsval;
    cd_quantity : jsval }.

Definition createResourceService (data : CreateData) (d : db)
  : outcome (svc Enriched.t) * db :=
  let resourceDataId := cd_resourceDataId data in
  let quantity := cd_quantity data in
  if js_not resourceDataId then
    (Returned (Sentinel "RESOURCE_DATA_ID_REQUIRED"), d)
  else if invalid_quantity quantity then
    (Returned (Sentinel "INVALID_QUANTITY"), d)
  else
    match findByPk_ResourceData (js_number resourceDataId) d with
    | None => (Returned (Sentinel "RESOURCE_DATA_NOT_FOUND"), d)
    | Some resourceData =>
      match findOne_Resource_by_resourceDataId (js_number resourceDataId) d with
      | Some existingResource =>
        (Returned (Sentinel "RESOURCE_ALREADY_EXISTS"), d)
      | None =>
        let (resource, d') :=
          Resource_create (js_number resourceDataId) (js_number quantity) d in
        match findByPk_Resource_include (Resource.id resource) d' with
        | None => (Thrown TypeError, d')
        | Some enrichedResource =>
          match enrichResourceWithLevels enrichedResource with
          | Thrown e => (Thrown e, d')
          | Returned enriched => (Returned (Value enriched), d')
          end
        end
      end
    end.

(** ** Quantity-update controller *)

Record Response : Type := mkResponse
  { res_status : Z;
    res_resource : option Enriched.t }.

(** [updateResourceQuantityController]; [global_io] tells whether
    [global.io] is set, [timestamp] is the instant of the broadcast. *)
Definition updateResourceQuantityController (faults : fault_plan)
    (global_io : bool) (now timestamp : Z) (id : Z) (quantity : jsval)
    (d : db) : (Response * list Emit) * db :=
  match updateResourceQuantityService faults now id quantity d with
  | (Thrown e, d') =>
    ({| res_status := 500; res_resource := None |}, [], d')
  | (Returned (Sentinel s), d') =>
    if String.eqb s "RESOURCE_NOT_FOUND" then
      ({| res_status := 404; res_resource := None |}, [], d')
    else if String.eqb s "INVALID_QUANTITY" then
      ({| res_status := 400; res_resource := None |}, [], d')
    else
      (* no other sentinel comes back from the service *)
      ({| res_status := 200; res_resource := None |}, [], d')
  | (Returned (Value result), d') =>
    if global_io then
      match getAllResourcesService d' with
      | Thrown e =>
        ({| res_status := 500; res_resource := None |}, [], d')
      | Returned allResources =>
        ({| res_status := 200; res_resource := Some result |},
         [ {| em_event := "resources:update";
              em_resources := map WithLevels allResources;
              em_count := None;
              em_timestamp := timestamp |} ],
         d')
      end
    else
      ({| res_status := 200; res_resource := Some result |}, [], d')
  end.

(** ** Reads of the resource store *)

(** [getResourceByIdService(id)]: [null] ([None]) when no row has the
    key. *)
Definition getResourceByIdService (id : Z) (d : db)
  : outcome (option Enriched.t) :=
  match findByPk_Resource_include id d with
  | None => Returned None
  | Some resource =>
    match enrichResourceWithLevels resource with
    | Thrown e => Thrown e
    | Returned enriched => Returned (Some enriched)
    end
  end.




(** [Array.prototype.filter] with a callback that may throw. *)
Fixpoint filter_outcome {A : Type} (f : A -> outcome bool) (l : list A)
  : outcome (list A) :=
  match l with
  | [] => Returned []
  | a :: l' =>
    match f a with
    | Thrown e => Thrown e
    | Returned keep =>
      match filter_outcome f l' with
      | Thrown e => Thrown e
      | Returned kept => Returned (if keep then a :: kept else kept)
      end
    end
  end.

Section Alerts.

(** [isResourceCritical(quantity, category)] of
    [constants/resource.constants.js], a file that is absent from the
    sources. *)
Variable isResourceCritical : Z -> string -> bool.

(** [getCriticalResourcesService]: reading [resource.resourceData.category]
    throws on a row loaded without its catalog entry. *)
Definition getCriticalResourcesService (d : db) : outcome (list Enriched.t) :=
  match filter_outcome
          (fun resource =>
             match Loaded.resourceData resource with
             | None => Thrown TypeError
             | Some resourceData =>
               Returned (isResourceCritical (Loaded.quantity resource)
                           (ResourceData.category resourceData))
             end)
          (findAll_Resource_include d) with
  | Thrown e => Thrown e
  | Returned resources => map_outcome enrichResourceWithLevels resources
  end.

End Alerts.

(** ** Socket connections *)

(** What the server sends to a socket that connects. *)
Inductive SocketMessage : Type :=
| Welcome (timestamp : Z)
| Event (e : Emit).

(** The [connection] handler of [Server.sockets] in [server.js]; the two
    instants are those of the two [new Date()].  An error while loading
    the resources is caught and logged, and nothing more is sent. *)
Definition on_connection (timestamp1 timestamp2 : Z) (d : db)
  : list SocketMessage :=
  Welcome timestamp1 ::
  match getAllResourcesService d with
  | Thrown e => []
  | Returned resources =>
    [ Event {| em_event := "resources:initial";
               em_resources := map WithLevels resources;
               em_count := Some (length resources);
               em_timestamp := timestamp2 |} ]
  end.

(** ** The reference deployment *)

(** The table of levels per category of the README. *)
Definition reference_levels (category : string) : option Levels :=
  if String.eqb category "oxygen" then
    Some {| lv_minimumLevel := 3000; lv_criticalLevel := 5000;
            lv_maximumLevel := 25000; lv_unit := "L" |}
  else if String.eqb category "water" then
    Some {| lv_minimumLevel := 50; lv_criticalLevel := 80;
            lv_maximumLevel := 500; lv_unit := "L" |}
  else if String.eqb category "spare_parts" then
    Some {| lv_minimumLevel := 10; lv_criticalLevel := 20;
            lv_maximumLevel := 100; lv_unit := "u" |}
  else if String.eqb category "food" then
    Some {| lv_minimumLevel := 5; lv_criticalLevel := 10;
            lv_maximumLevel := 70; lv_unit := "kg" |}
  else None.

Definition oxygen_tank : ResourceData.t :=
  {| ResourceData.id := 1;
     ResourceData.name := "Main Oxygen Tank";
     ResourceData.category := "oxygen" |}.

Definition water_tank : ResourceData.t :=
  {| ResourceData.id := 2;
     ResourceData.name := "Water Reserve";
     ResourceData.category := "water" |}.

Definition oxygen_levels : Levels :=
  {| lv_minimumLevel := 3000; lv_criticalLevel := 5000;
     lv_maximumLevel := 25000; lv_unit := "L" |}.


Definition sample_resource : Resource.t :=
  {| Resource.id := 1; Resource.quantity := 15000;
     Resource.resourceDataId := 1 |}.

Definition sample_entry_1 : ChangeHistory.t :=
  {| ChangeHistory.id := 1; ChangeHistory.stock := 14000;
     ChangeHistory.resourceId := 1;
     ChangeHistory.changeType := None;
     ChangeHistory.createdAt := 1000 |}.

Definition sample_entry_2 : ChangeHistory.t :=
  {| ChangeHistory.id := 2; ChangeHistory.stock := 15000;
     ChangeHistory.resourceId := 1;
     ChangeHistory.changeType := Some increase;
     ChangeHistory.createdAt := 61000 |}.

(** A store with two catalog entries, one tracked resource (the oxygen
    tank, at 15000) and two history rows for it. *)
Definition sample_db : db :=
  {| resource_data := [oxygen_tank; water_tank];
     resources := [sample_resource];
     change_history := [sample_entry_1; sample_entry_2] |}.

(** The oxygen tank as loaded from [sample_db], and its enriched view. *)
Definition sample_loaded : Loaded.t :=
  {| Loaded.id := 1; Loaded.quantity := 15000;
     Loaded.resourceDataId := 1;
     Loaded.resourceData := Some oxygen_tank |}.

Definition sample_view (quantity : Z) (status : Status) : Enriched.t :=
  {| Enriched.id := 1;
     Enriched.quantity := quantity;
     Enriched.resourceDataId := 1;
     Enriched.resourceData := oxygen_tank;
     Enriched.minimumLevel := 3000;
     Enriched.criticalLevel := 5000;
     Enriched.maximumLevel := 25000;
     Enriched.unit := "L";
     Enriched.status := status |}.

(** [sample_db] after the oxygen tank is updated to 4000 at instant
    70000. *)
Definition sample_entry_3 : ChangeHistory.t :=
  {| ChangeHistory.id := 3; ChangeHistory.stock := 4000;
     ChangeHistory.resourceId := 1;
     ChangeHistory.changeType := Some decrease;
     ChangeHistory.createdAt := 70000 |}.

Definition sample_db_updated : db :=
  {| resource_data := [oxygen_tank; water_tank];
     resources :=
       [ {| Resource.id := 1; Resource.quantity := 4000;
            Resource.resourceDataId := 1 |} ];
     change_history := [sample_entry_1; sample_entry_2; sample_entry_3] |}.

(** [sample_db] with one history row, written in the millisecond 70000. *)
Definition tied_entry : ChangeHistory.t :=
  {| ChangeHistory.id := 1; ChangeHistory.stock := 15000;
     ChangeHistory.resourceId := 1;
     ChangeHistory.changeType := None;
     ChangeHistory.createdAt := 70000 |}.

Definition tied_db : db :=
  {| resource_data := [oxygen_tank; water_tank];
     resources := [sample_resource];
     change_history := [tied_entry] |}.

(** The store fails the insert of the history row. *)
Definition fault_at_create : fault_plan :=
  fun s => match s with AtCreate => true | _ => false end.

(** The store accepts the two writes and fails the commit. *)
Definition fault_at_commit : fault_plan :=
  fun s => match s with AtCommit => true | _ => false end.

(** ** Vocabulary of the properties *)

(** A request field that is absent: missing or [null]. *)
Definition absent (v : jsval) : Prop :=
  v = JUndefined \/ v = JNull.

(** A quantity that is negative or absent. *)
Definition negative_or_absent (v : jsval) : Prop :=
  absent v \/ exists n, v = JNum n /\ n < 0.

(** The row of [resources] after its quantity is overwritten. *)
Definition with_quantity (r : Resource.t) (quantity : Z) : Resource.t :=
  {| Resource.id := Resource.id r;
     Resource.quantity := quantity;
     Resource.resourceDataId := Resource.resourceDataId r |}.

(** The store after the two writes of a quantity update. *)
Definition updated_store (now q : Z) (resource : Resource.t) (d : db) : db :=
  ChangeHistory_create now q (Resource.resourceDataId resource)
    (Some (changeType_of q (Resource.quantity resource)))
    (Resource_save (set_quantity (include_resourceData d resource) q) d).

(** A type id resolves in the catalog when some catalog row has it. *)
Definition resolves_in_catalog (resourceId : Z) (d : db) : Prop :=
  exists rd, In rd (resource_data d) /\ ResourceData.id rd = resourceId.

(** [a] was not recorded after [b], and [a] was not recorded before [b]. *)
Definition not_after (a b : ChangeHistory.t) : Prop :=
  ChangeHistory.createdAt a <= ChangeHistory.createdAt b.

Definition not_before (a b : ChangeHistory.t) : Prop :=
  ChangeHistory.createdAt b <= ChangeHistory.createdAt a.

(** The store with another table of resource states. *)
Definition with_resources (d : db) (rs : list Resource.t) : db :=
  {| resource_data := resource_data d;
     resources := rs;
     change_history := change_history d |}.

(** The instant whose local time is [ms] milliseconds before the local
    time of [now]: the same time of day on an earlier day when [ms] is a
    number of days.  It is [now - ms] when the offset from UTC is the same
    at both ends, and differs from it by the change of the offset
    otherwise. *)
Definition local_time_back (now ms : Z) : Z := UTC (LocalTime now - ms).








(** [isResourceCritical] as the comment of [getCriticalResourcesService]
    describes it (resources at or below critical levels), over the levels
    of the README. *)
Definition reference_isResourceCritical (quantity : Z) (category : string)
  : bool :=
  match reference_levels category with
  | Some levels => quantity <=? lv_criticalLevel levels
  | None => false
  end.

(** [sample_db] with the water reserve tracked too, at 60. *)
Definition sample_water : Resource.t :=
  {| Resource.id := 2; Resource.quantity := 60;
     Resource.resourceDataId := 2 |}.

Definition sample_db_two : db :=
  {| resource_data := [oxygen_tank; water_tank];
     resources := [sample_resource; sample_water];
     change_history := [sample_entry_1; sample_entry_2] |}.

Definition sample_water_view : Enriched.t :=
  {| Enriched.id := 2;
     Enriched.quantity := 60;
     Enriched.resourceDataId := 2;
     Enriched.resourceData := water_tank;
     Enriched.minimumLevel := 50;
     Enriched.criticalLevel := 80;
     Enriched.maximumLevel := 500;
     Enriched.unit := "L";
     Enriched.status := critical |}.


(** ** Time zones and ledgers of the checks *)

(** The server keeps UTC. *)
Definition utc_zone : Z -> bool -> Z := fun _ _ => 0.

(** A time zone whose offset from UTC is [before] up to the instant
    [change] and [after] from it on.  A local time that the change makes
    occur twice, or not at all, is read with the offset before the
    change. *)
Definition zone_with_change (change before after : Z) : Z -> bool -> Z :=
  fun t isUTC =>
    if isUTC then (if t <? change then before else after)
    else (if t <? change + Z.max before after then before else after).

(** New York around 2024-03-10T07:00:00Z, when its clocks went forward by
    one hour: from five hours behind UTC to four hours behind. *)
Definition new_york_spring : Z -> bool -> Z :=
  zone_with_change 1710054000000 (-18000000) (-14400000).


(** The sweep of 2024-04-01, at 03:00 in New York (07:00:00Z), and a
    ledger whose one row was recorded 30 times 24 hours before it
    (2024-03-02T07:00:00Z). *)
Definition sweep_time : Z := 1711954800000.

Definition month_old_entry : ChangeHistory.t :=
  {| ChangeHistory.id := 1; ChangeHistory.stock := 14000;
     ChangeHistory.resourceId := 1;
     ChangeHistory.changeType := None;
     ChangeHistory.createdAt := 1709362800000 |}.

Definition month_old_db : db :=
  {| resource_data := [oxygen_tank; water_tank];
     resources := [sample_resource];
     change_history := [month_old_entry] |}.







(** ** Vocabulary of the further properties *)

Definition is_critical (s : Status) : bool :=
  match s with critical => true | _ => false end.

(** Primary keys are unique in the two tables that grow. *)
Definition keys_unique (d : db) : Prop :=
  NoDup (map Resource.id (resources d)) /\
  NoDup (map ChangeHistory.id (change_history d)).

(** At most one resource state per resource type. *)
Definition one_state_per_type (d : db) : Prop :=
  NoDup (map Resource.resourceDataId (resources d)).

(** Every resource state references a catalog entry. *)
Definition types_resolve (d : db) : Prop :=
  forall r, In r (resources d) ->
            resolves_in_catalog (Resource.resourceDataId r) d.

Definition store_ok (d : db) : Prop :=
  keys_unique d /\ one_state_per_type d /\ types_resolve d.

(** The view of a resource state in an enriched list. *)
Definition view_of (levels : Levels) (r : Resource.t) (e : Enriched.t) : Prop :=
  Enriched.id e = Resource.id r /\
  Enriched.quantity e = Resource.quantity r /\
  Enriched.resourceDataId e = Resource.resourceDataId r /\
  Enriched.criticalLevel e = lv_criticalLevel levels /\
  Enriched.minimumLevel e = lv_minimumLevel levels /\
  Enriched.status e = status_of (Resource.quantity r) levels.


(** ** The order of the rows a query returns *)

(** What [ORDER BY "createdAt"] asks of the store: the rows selected come
    back, all of them and no other, oldest first or newest first.  Nothing
    is asked on the order of rows with the same [createdAt]. *)
Hypothesis order_createdAt_ASC_perm :
  forall l, Permutation (order_createdAt_ASC l) l.
Hypothesis order_createdAt_ASC_sorted :
  forall l, StronglySorted not_after (order_createdAt_ASC l).
Hypothesis order_createdAt_DESC_perm :
  forall l, Permutation (order_createdAt_DESC l) l.
Hypothesis order_createdAt_DESC_sorted :
  forall l, StronglySorted not_before (order_createdAt_DESC l).

(** * Properties *)

(** ** Facts on the tables *)

Lemma next_id_above (ids : list Z) (x : Z) :
  In x ids -> x < next_id ids.
Proof.
  unfold next_id.
  induction ids as [| y ids IH]; cbn [fold_right In]; intros H.
  - contradiction.
  - destruct H as [-> | H].
    + lia.
    + specialize (IH H). lia.
Qed.

Lemma find_app_none {A : Type} (f : A -> bool) (l l' : list A) :
  find f l = None -> find f (l ++ l') = find f l'.
Proof.
  induction l as [| a l IH]; simpl; intros H.
  - reflexivity.
  - destruct (f a); [discriminate | auto].
Qed.

Lemma find_none_forall {A : Type} (f : A -> bool) (l : list A) :
  (forall a, In a l -> f a = false) -> find f l = None.
Proof.
  induction l as [| a l IH]; simpl; intros H.
  - reflexivity.
  - rewrite (H a (or_introl eq_refl)). apply IH. intros b Hb. apply H. now right.
Qed.

(** The UPDATE of [Resource_save] seen through a lookup by key. *)
Lemma find_after_save (resource : Loaded.t) (pk : Z) (l : list Resource.t) :
  find (fun r => Resource.id r =? pk)
       (map (fun r =>
               if Resource.id r =? Loaded.id resource
               then {| Resource.id := Resource.id r;
                       Resource.quantity := Loaded.quantity resource;
                       Resource.resourceDataId := Resource.resourceDataId r |}
               else r) l)
  = option_map
      (fun r =>
         if Resource.id r =? Loaded.id resource
         then {| Resource.id := Resource.id r;
                 Resource.quantity := Loaded.quantity resource;
                 Resource.resourceDataId := Resource.resourceDataId r |}
         else r)
      (find (fun r => Resource.id r =? pk) l).
Proof.
  induction l as [| r l IH]; simpl.
  - reflexivity.
  - destruct (Resource.id r =? Loaded.id resource) eqn:E; cbn [Resource.id];
      destruct (Resource.id r =? pk); cbn [option_map]; rewrite ?E; auto.
Qed.

Lemma findByPk_Resource_id (pk : Z) (d : db) (r : Resource.t) :
  findByPk_Resource pk d = Some r -> Resource.id r = pk.
Proof.
  unfold findByPk_Resource. intros H.
  apply find_some in H. destruct H as [_ H]. now apply Z.eqb_eq in H.
Qed.

Lemma invalid_quantity_spec (quantity : jsval) :
  invalid_quantity quantity = true <->
  quantity = JUndefined \/ quantity = JNull \/
  exists n, quantity = JNum n /\ n < 0.
Proof.
  destruct quantity as [| | n]; simpl.
  - intuition.
  - intuition.
  - unfold invalid_quantity; simpl. rewrite Z.ltb_lt. split.
    + intros H. right. right. exists n. auto.
    + intros [H | [H | [m [H Hm]]]]; try discriminate. now inversion H.
Qed.

Lemma invalid_quantity_JNum (n : Z) :
  invalid_quantity (JNum n) = (n <? 0).
Proof. reflexivity. Qed.

Local Abbreviation enrich := enrichResourceWithLevels.
Local Abbreviation updateQuantity := updateResourceQuantityService.
Local Abbreviation create := createResourceService.
Local Abbreviation listAll := getAllResourcesService.
Local Abbreviation getById := getResourceByIdService.

(** ** Level policy *)

(** C2.  For a loaded resource whose category has levels, the enriched view
    is produced and its status is "critical" exactly when quantity <=
    criticalLevel, "low" exactly when criticalLevel < quantity <=
    minimumLevel, and "normal" exactly when the quantity is above both
    levels: three disjoint bands that cover every quantity.  The critical
    check comes first: a quantity at or below both levels is "critical",
    whatever the order of criticalLevel and minimumLevel. *)
Theorem status_three_bands (resource : Loaded.t) (resourceData : ResourceData.t)
    (levels : Levels) :
  Loaded.resourceData resource = Some resourceData ->
  getLevelsByCategory (ResourceData.category resourceData) = Some levels ->
  exists e,
    enrich resource = Returned e /\
    Enriched.criticalLevel e = lv_criticalLevel levels /\
    Enriched.minimumLevel e = lv_minimumLevel levels /\
    (Enriched.status e = critical <->
     Loaded.quantity resource <= lv_criticalLevel levels) /\
    (Enriched.status e = low <->
     lv_criticalLevel levels < Loaded.quantity resource /\
     Loaded.quantity resource <= lv_minimumLevel levels) /\
    (Enriched.status e = normal <->
     lv_criticalLevel levels < Loaded.quantity resource /\
     lv_minimumLevel levels < Loaded.quantity resource) /\
    (Loaded.quantity resource <= lv_criticalLevel levels ->
     Loaded.quantity resource <= lv_minimumLevel levels ->
     Enriched.status e = critical).
Proof.
  intros Hrd Hlv. unfold enrichResourceWithLevels. rewrite Hrd, Hlv.
  eexists. split; [reflexivity |]. simpl. unfold status_of.
  destruct (Z.leb_spec (Loaded.quantity resource) (lv_criticalLevel levels)) as [Hc | Hc];
    [| destruct (Z.leb_spec (Loaded.quantity resource) (lv_minimumLevel levels)) as [Hm | Hm]];
    repeat split; intros; try discriminate; try lia; auto.
Qed.

(** ** Quantity update *)

Lemma invalid_quantity_iff (quantity : jsval) :
  invalid_quantity quantity = true <-> negative_or_absent quantity.
Proof.
  rewrite invalid_quantity_spec. unfold negative_or_absent, absent. tauto.
Qed.

(** The service on a resource that resolves and a valid quantity: a fault
    at any of the three requests leaves the store as it was, and the call
    throws the error of the failed write, or, when it is the commit that
    failed, the error of the rollback attempted on the finished
    transaction; without a fault both writes are committed, and then the
    view is computed. *)
Lemma updateQuantity_resolved (faults : fault_plan) (now id q : Z) (d : db)
    (resource : Resource.t) :
  findByPk_Resource id d = Some resource ->
  0 <= q ->
  updateQuantity faults now id (JNum q) d =
  if faults AtSave || faults AtCreate || faults AtCommit
  then (Thrown (if faults AtSave || faults AtCreate
                then StorageFault else TransactionFinished), d)
  else
    (match enrich (set_quantity (include_resourceData d resource) q) with
     | Returned e => Returned (Value e)
     | Thrown _ => Thrown TransactionFinished
     end,
     updated_store now q resource d).
Proof.
  intros Hfind Hq. unfold updateResourceQuantityService.
  rewrite invalid_quantity_JNum.
  destruct (Z.ltb_spec q 0) as [Hneg | _]; [lia |].
  unfold findByPk_Resource_include. rewrite Hfind. cbn [option_map].
  unfold try_catch, tx_bind, tx_write, tx_commit, tx_rollback, tx_lift,
    tx_ret, tx_throw, sequelize_transaction, updated_store.
  cbn [js_number].
  destruct (faults AtSave); cbn; [reflexivity |].
  destruct (faults AtCreate); cbn; [reflexivity |].
  destruct (faults AtCommit); cbn; [reflexivity |].
  destruct (enrich (set_quantity (include_resourceData d resource) q));
    reflexivity.
Qed.

Lemma findByPk_updated_store (pk now q : Z) (d : db) (resource : Resource.t) :
  findByPk_Resource pk (updated_store now q resource d)
  = option_map
      (fun r => if Resource.id r =? Resource.id resource
                then with_quantity r q else r)
      (findByPk_Resource pk d).
Proof.
  unfold findByPk_Resource, updated_store, ChangeHistory_create, Resource_save.
  cbn [resources].
  apply (find_after_save (set_quantity (include_resourceData d resource) q)).
Qed.

(** C1.  For a resource id that resolves and a valid new quantity: when
    the store fails none of the requests of the transaction, the update
    overwrites the quantity of that resource (the other resources and the
    catalog are untouched) and appends exactly one history entry, with the
    new quantity as stock, the resource's type as reference and the
    instant of the call; when the store fails any request of the
    transaction (the save, the insert or the commit), the call throws and
    the store, current quantities and history ledger alike, is exactly
    the store before the call.  The error thrown is the store's when the
    save or the insert failed; when only the commit failed the transaction
    is already finished, the rollback of the handler is refused, and the
    caller receives that refusal instead of the store's error. *)
Theorem updateQuantity_atomic (faults : fault_plan) (now id q : Z) (d : db)
    (resource : Resource.t) :
  findByPk_Resource id d = Some resource ->
  0 <= q ->
  ((forall s, faults s = false) ->
   let d' := snd (updateQuantity faults now id (JNum q) d) in
   resource_data d' = resource_data d /\
   findByPk_Resource id d' = Some (with_quantity resource q) /\
   (forall pk, pk <> id -> findByPk_Resource pk d' = findByPk_Resource pk d) /\
   map Resource.id (resources d') = map Resource.id (resources d) /\
   exists e,
     change_history d' = change_history d ++ [e] /\
     ChangeHistory.stock e = q /\
     ChangeHistory.resourceId e = Resource.resourceDataId resource /\
     ChangeHistory.createdAt e = now) /\
  ((exists s, faults s = true) ->
   snd (updateQuantity faults now id (JNum q) d) = d /\
   exists error, fst (updateQuantity faults now id (JNum q) d) = Thrown error) /\
  (faults AtSave = true \/ faults AtCreate = true ->
   updateQuantity faults now id (JNum q) d = (Thrown StorageFault, d)) /\
  (faults AtSave = false -> faults AtCreate = false -> faults AtCommit = true ->
   updateQuantity faults now id (JNum q) d = (Thrown TransactionFinished, d)).
Proof.
  intros Hfind Hq.
  rewrite (updateQuantity_resolved faults now id q d resource Hfind Hq).
  pose proof (findByPk_Resource_id _ _ _ Hfind) as Hid.
  split; [| split; [| split]].
  - intros Hno. rewrite !Hno. cbn [orb snd].
    split; [reflexivity |]. split; [| split; [| split]].
    + rewrite findByPk_updated_store, Hfind. cbn [option_map].
      now rewrite Z.eqb_refl.
    + intros pk Hpk. rewrite findByPk_updated_store.
      destruct (findByPk_Resource pk d) as [r |] eqn:E; [| reflexivity].
      cbn [option_map]. apply findByPk_Resource_id in E.
      destruct (Z.eqb_spec (Resource.id r) (Resource.id resource)); [lia | reflexivity].
    + unfold updated_store, ChangeHistory_create, Resource_save.
      cbn [resources]. rewrite map_map. apply map_ext. intros r.
      cbn [Loaded.id set_quantity include_resourceData].
      now destruct (Resource.id r =? Resource.id resource).
    + eexists. split; [reflexivity |]. cbn. auto.
  - intros [s Hs].
    assert (faults AtSave || faults AtCreate || faults AtCommit = true) as ->.
    { destruct s; rewrite Hs; rewrite ?orb_true_r; reflexivity. }
    cbn [fst snd]. split; [reflexivity | eexists; reflexivity].
  - intros Hwrite.
    assert (faults AtSave || faults AtCreate = true) as ->.
    { destruct Hwrite as [-> | ->]; rewrite ?orb_true_r; reflexivity. }
    reflexivity.
  - intros -> -> ->. reflexivity.
Qed.

(** ** Ordering of the ledger *)

(** A row strictly newer than all the others of a list comes first in
    every newest-first order of the list. *)
Lemma newest_first (l sorted : list ChangeHistory.t) (e : ChangeHistory.t) :
  Permutation sorted (l ++ [e]) ->
  StronglySorted not_before sorted ->
  (forall h, In h l -> ChangeHistory.createdAt h < ChangeHistory.createdAt e) ->
  exists rest, sorted = e :: rest /\ Permutation rest l.
Proof.
  intros Hperm Hsorted Hnewer.
  destruct sorted as [| x rest].
  { apply Permutation_nil in Hperm. now destruct l. }
  assert (x = e) as ->.
  { assert (In x (l ++ [e])) as Hx
      by (apply (Permutation_in _ Hperm); now left).
    apply in_app_or in Hx. destruct Hx as [Hx | [Hx | []]]; [| now symmetry].
    exfalso. specialize (Hnewer x Hx).
    assert (In e (x :: rest)) as He.
    { apply (Permutation_in _ (Permutation_sym Hperm)).
      apply in_or_app. right. now left. }
    destruct He as [He | He]; [subst x; lia |].
    apply StronglySorted_inv in Hsorted. destruct Hsorted as [_ Hall].
    rewrite Forall_forall in Hall. specialize (Hall e He).
    unfold not_before in Hall. lia. }
  exists rest. split; [reflexivity |].
  apply (Permutation_cons_app_inv l []) in Hperm.
  now rewrite app_nil_r in Hperm.
Qed.

Lemma change_history_updated_store (now q : Z) (d : db) (resource : Resource.t) :
  change_history (updated_store now q resource d) =
  change_history d ++
  [ {| ChangeHistory.id := next_id (map ChangeHistory.id (change_history d));
       ChangeHistory.stock := q;
       ChangeHistory.resourceId := Resource.resourceDataId resource;
       ChangeHistory.changeType :=
         Some (changeType_of q (Resource.quantity resource));
       ChangeHistory.createdAt := now |} ].
Proof. reflexivity. Qed.

Lemma enrich_returned (resource : Loaded.t) (e : Enriched.t) :
  enrich resource = Returned e ->
  exists resourceData levels,
    Loaded.resourceData resource = Some resourceData /\
    getLevelsByCategory (ResourceData.category resourceData) = Some levels /\
    Enriched.quantity e = Loaded.quantity resource /\
    Enriched.status e = status_of (Loaded.quantity resource) levels.
Proof.
  unfold enrichResourceWithLevels.
  destruct (Loaded.resourceData resource) as [rd |]; [| discriminate].
  destruct (getLevelsByCategory (ResourceData.category rd)) as [lv |] eqn:Hlv;
    [| discriminate].
  intros H. inversion H; subst; clear H. exists rd, lv. cbn.
  repeat split; auto.
Qed.

(** C3.  After a successful quantity update of a resource to [q] at
    instant [now], every earlier entry of the resource's type being
    strictly older than [now], the history query for that type with limit
    1 returns exactly one entry, the one just written: its stock is [q]
    and its change type is "increase" when [q] is above the prior
    quantity, "decrease" when below, "update" when equal.  This holds
    whatever order the store gives to rows with the same [createdAt]; the
    query sorts on [createdAt] alone, so an earlier entry written in the
    same millisecond may come first. *)
Theorem update_then_newest_history (faults : fault_plan) (now id q : Z)
    (d d' : db) (resource : Resource.t) (e : Enriched.t) :
  findByPk_Resource id d = Some resource ->
  updateQuantity faults now id (JNum q) d = (Returned (Value e), d') ->
  (forall h, In h (change_history d) ->
             ChangeHistory.resourceId h = Resource.resourceDataId resource ->
             ChangeHistory.createdAt h < now) ->
  exists row,
    getResourceHistoryService (Resource.resourceDataId resource) (Some 1%nat) d'
    = Value [row] /\
    ChangeHistory.stock (HistoryRow.entry row) = q /\
    ChangeHistory.createdAt (HistoryRow.entry row) = now /\
    (Resource.quantity resource < q ->
     ChangeHistory.changeType (HistoryRow.entry row) = Some increase) /\
    (q < Resource.quantity resource ->
     ChangeHistory.changeType (HistoryRow.entry row) = Some decrease) /\
    (q = Resource.quantity resource ->
     ChangeHistory.changeType (HistoryRow.entry row) = Some update).
Proof using Type order_createdAt_DESC_perm order_createdAt_DESC_sorted.
  intros Hfind Hok Hclock.
  assert (0 <= q) as Hq.
  { destruct (Z.ltb_spec q 0) as [Hneg | Hpos]; [| exact Hpos].
    unfold updateResourceQuantityService in Hok.
    rewrite invalid_quantity_JNum in Hok.
    apply Z.ltb_lt in Hneg. rewrite Hneg in Hok. discriminate. }
  rewrite (updateQuantity_resolved faults now id q d resource Hfind Hq) in Hok.
  destruct (faults AtSave || faults AtCreate || faults AtCommit);
    [discriminate |].
  destruct (enrich (set_quantity (include_resourceData d resource) q))
    as [e' | err] eqn:Henrich; [| discriminate].
  inversion Hok; subst e' d'; clear Hok.
  apply enrich_returned in Henrich.
  destruct Henrich as (rd & lv & Hrd & _).
  cbn [set_quantity include_resourceData Loaded.resourceData] in Hrd.
  unfold getResourceHistoryService.
  assert (findByPk_ResourceData (Resource.resourceDataId resource)
            (updated_store now q resource d) = Some rd) as ->
    by exact Hrd.
  rewrite change_history_updated_store.
  rewrite filter_app. cbn [filter ChangeHistory.resourceId].
  rewrite Z.eqb_refl.
  match goal with
  | |- context [order_createdAt_DESC (?l ++ [?x])] =>
    destruct (newest_first l (order_createdAt_DESC (l ++ [x])) x
                (order_createdAt_DESC_perm _) (order_createdAt_DESC_sorted _))
      as (rest & -> & _)
  end.
  - intros h Hh. apply filter_In in Hh. destruct Hh as [Hin Heq].
    apply Z.eqb_eq in Heq. cbn [ChangeHistory.createdAt].
    apply Hclock; assumption.
  - cbn [firstn map]. eexists. split; [reflexivity |].
    cbn [HistoryRow.entry include_history_resourceData ChangeHistory.stock
         ChangeHistory.createdAt ChangeHistory.changeType].
    unfold changeType_of.
    split; [reflexivity |]. split; [reflexivity |].
    destruct (Z.gtb_spec q (Resource.quantity resource));
      destruct (Z.ltb_spec q (Resource.quantity resource));
      repeat split; intros; try lia; reflexivity.
Qed.

(** ** Resource creation *)


Lemma js_not_JNum (n : Z) : n <> 0 -> js_not (JNum n) = false.
Proof. intros H. cbn. now apply Z.eqb_neq. Qed.

Lemma findOne_some (rdid : Z) (d : db) :
  (exists r, In r (resources d) /\ Resource.resourceDataId r = rdid) ->
  exists r, findOne_Resource_by_resourceDataId rdid d = Some r.
Proof.
  intros (r & Hin & Heq). unfold findOne_Resource_by_resourceDataId.
  destruct (find (fun r0 => Resource.resourceDataId r0 =? rdid) (resources d))
    as [r' |] eqn:E.
  - now exists r'.
  - apply (find_none _ _ E) in Hin. cbn in Hin. apply Z.eqb_neq in Hin.
    contradiction.
Qed.

Lemma findOne_none (rdid : Z) (d : db) :
  (forall r, In r (resources d) -> Resource.resourceDataId r <> rdid) ->
  findOne_Resource_by_resourceDataId rdid d = None.
Proof.
  intros H. apply find_none_forall. intros r Hr. apply Z.eqb_neq. now apply H.
Qed.

(** The row loaded back after [Resource.create] is the row just created. *)
Lemma findByPk_created (rdid q : Z) (d : db) :
  findByPk_Resource_include
    (Resource.id (fst (Resource_create rdid q d)))
    (snd (Resource_create rdid q d))
  = Some (include_resourceData (snd (Resource_create rdid q d))
            (fst (Resource_create rdid q d))).
Proof.
  unfold findByPk_Resource_include, findByPk_Resource, Resource_create.
  cbn [fst snd resources Resource.id].
  rewrite find_app_none.
  - cbn [find Resource.id]. now rewrite Z.eqb_refl.
  - apply find_none_forall. intros r Hr. apply Z.eqb_neq.
    pose proof (next_id_above (map Resource.id (resources d)) (Resource.id r)
                  (in_map Resource.id _ _ Hr)).
    lia.
Qed.


(** ** Quantity validation *)

Lemma valid_quantity_JNum (quantity : jsval) :
  invalid_quantity quantity = false ->
  exists n, quantity = JNum n /\ 0 <= n.
Proof.
  destruct quantity as [| | n]; try discriminate.
  rewrite invalid_quantity_JNum. intros H. exists n. split; [reflexivity |].
  now apply Z.ltb_ge.
Qed.

Lemma updateQuantity_invalid (faults : fault_plan) (now id : Z)
    (quantity : jsval) (d : db) :
  invalid_quantity quantity = true ->
  updateQuantity faults now id quantity d =
  (Returned (Sentinel "INVALID_QUANTITY"), d).
Proof.
  intros H. unfold updateResourceQuantityService. now rewrite H.
Qed.

Lemma updateQuantity_valid_result (faults : fault_plan) (now id : Z)
    (quantity : jsval) (d : db) :
  invalid_quantity quantity = false ->
  fst (updateQuantity faults now id quantity d) <>
  Returned (Sentinel "INVALID_QUANTITY").
Proof.
  intros H. destruct (valid_quantity_JNum _ H) as (n & -> & Hn).
  destruct (findByPk_Resource id d) as [r |] eqn:Hfind.
  - rewrite (updateQuantity_resolved faults now id n d r Hfind Hn).
    destruct (faults AtSave || faults AtCreate || faults AtCommit);
      cbn [fst]; [discriminate |].
    destruct (enrich (set_quantity (include_resourceData d r) n)); discriminate.
  - unfold updateResourceQuantityService, findByPk_Resource_include.
    rewrite H, Hfind. cbn. discriminate.
Qed.

Lemma create_valid_result (rdid : Z) (quantity : jsval) (d : db) :
  invalid_quantity quantity = false ->
  fst (create {| cd_resourceDataId := JNum rdid; cd_quantity := quantity |} d)
  <> Returned (Sentinel "INVALID_QUANTITY").
Proof.
  intros H. unfold createResourceService.
  cbn [cd_resourceDataId cd_quantity]. rewrite H.
  destruct (js_not (JNum rdid)); [cbn; discriminate |].
  destruct (findByPk_ResourceData (js_number (JNum rdid)) d);
    [| cbn; discriminate].
  destruct (findOne_Resource_by_resourceDataId (js_number (JNum rdid)) d);
    [cbn; discriminate |].
  destruct (Resource_create _ _ d) as [row d'].
  destruct (findByPk_Resource_include (Resource.id row) d') as [loaded |];
    [| cbn; discriminate].
  destruct (enrich loaded); cbn; discriminate.
Qed.

(** C10.  The quantity guard holds exactly of [undefined], [null] and the
    numbers below 0.  [updateQuantity] returns INVALID_QUANTITY exactly on
    these quantities, and [create] called with a type id does so exactly
    on these quantities; in both the store is then unchanged.  Quantity 0
    passes: an update to 0 of a resource that resolves sets its quantity
    to 0 and appends a history entry with stock 0, and [create] with 0 for
    a catalog type without a resource state appends a resource state with
    quantity 0. *)
Theorem quantity_validation :
  (forall quantity,
     invalid_quantity quantity = true <->
     quantity = JUndefined \/ quantity = JNull \/
     exists n, quantity = JNum n /\ n < 0) /\
  (forall faults now id quantity d,
     (fst (updateQuantity faults now id quantity d)
      = Returned (Sentinel "INVALID_QUANTITY") <->
      negative_or_absent quantity) /\
     (negative_or_absent quantity ->
      snd (updateQuantity faults now id quantity d) = d)) /\
  (forall rdid quantity d,
     rdid <> 0 ->
     (fst (create {| cd_resourceDataId := JNum rdid;
                     cd_quantity := quantity |} d)
      = Returned (Sentinel "INVALID_QUANTITY") <->
      negative_or_absent quantity) /\
     (negative_or_absent quantity ->
      snd (create {| cd_resourceDataId := JNum rdid;
                     cd_quantity := quantity |} d) = d)) /\
  (forall now id d resource,
     findByPk_Resource id d = Some resource ->
     let d' := snd (updateQuantity no_fault now id (JNum 0) d) in
     findByPk_Resource id d' = Some (with_quantity resource 0) /\
     exists e,
       change_history d' = change_history d ++ [e] /\
       ChangeHistory.stock e = 0 /\
       ChangeHistory.resourceId e = Resource.resourceDataId resource) /\
  (forall rdid d resourceData,
     rdid <> 0 ->
     findByPk_ResourceData rdid d = Some resourceData ->
     (forall r, In r (resources d) -> Resource.resourceDataId r <> rdid) ->
     exists row,
       resources (snd (create {| cd_resourceDataId := JNum rdid;
                                 cd_quantity := JNum 0 |} d))
       = resources d ++ [row] /\
       Resource.quantity row = 0 /\
       Resource.resourceDataId row = rdid).
Proof.
  split; [exact invalid_quantity_spec |].
  split; [| split; [| split]].
  - intros faults now id quantity d. split; [split |].
    + intros Hres. apply invalid_quantity_iff.
      destruct (invalid_quantity quantity) eqn:E; [reflexivity |].
      exfalso. exact (updateQuantity_valid_result faults now id quantity d E Hres).
    + intros Hq. apply invalid_quantity_iff in Hq.
      now rewrite (updateQuantity_invalid faults now id quantity d Hq).
    + intros Hq. apply invalid_quantity_iff in Hq.
      now rewrite (updateQuantity_invalid faults now id quantity d Hq).
  - intros rdid quantity d Hnz.
    assert (negative_or_absent quantity ->
            create {| cd_resourceDataId := JNum rdid; cd_quantity := quantity |} d
            = (Returned (Sentinel "INVALID_QUANTITY"), d)) as Hinv.
    { intros Hq. apply invalid_quantity_iff in Hq.
      unfold createResourceService. cbn [cd_resourceDataId cd_quantity].
      now rewrite (js_not_JNum _ Hnz), Hq. }
    split; [split |].
    + intros Hres. apply invalid_quantity_iff.
      destruct (invalid_quantity quantity) eqn:E; [reflexivity |].
      exfalso. exact (create_valid_result rdid quantity d E Hres).
    + intros Hq. now rewrite (Hinv Hq).
    + intros Hq. now rewrite (Hinv Hq).
  - intros now id d resource Hfind. cbn zeta.
    rewrite (updateQuantity_resolved no_fault now id 0 d resource Hfind (Z.le_refl 0)).
    cbn [no_fault orb snd]. split.
    + rewrite findByPk_updated_store, Hfind. cbn [option_map].
      now rewrite Z.eqb_refl.
    + rewrite change_history_updated_store. eexists.
      split; [reflexivity |]. split; reflexivity.
  - intros rdid d rd Hnz Hcat Hfree.
    unfold createResourceService. cbn [cd_resourceDataId cd_quantity].
    rewrite (js_not_JNum _ Hnz). rewrite invalid_quantity_JNum.
    cbn [Z.ltb Z.compare js_number]. rewrite Hcat, (findOne_none _ _ Hfree).
    pose proof (findByPk_created rdid 0 d) as Hback.
    destruct (Resource_create rdid 0 d) as [row d'] eqn:Hcreate.
    cbn [fst snd] in Hback. rewrite Hback.
    unfold Resource_create in Hcreate. inversion Hcreate; subst row d'.
    eexists.
    destruct (enrich _); cbn [snd resources];
      (split; [reflexivity | split; reflexivity]).
Qed.

(** ** History query *)

Lemma StronglySorted_app_intro {A : Type} (R : A -> A -> Prop) (l1 l2 : list A) :
  StronglySorted R l1 -> StronglySorted R l2 ->
  (forall a b, In a l1 -> In b l2 -> R a b) ->
  StronglySorted R (l1 ++ l2).
Proof.
  induction l1 as [| x l1 IH]; intros H1 H2 H12; cbn [app].
  - exact H2.
  - apply StronglySorted_inv in H1. destruct H1 as [H1 Hx].
    constructor.
    + apply IH; auto. intros a b Ha Hb. apply H12; [now right | exact Hb].
    + apply Forall_app. split; [exact Hx |].
      apply Forall_forall. intros b Hb. apply H12; [now left | exact Hb].
Qed.

Lemma StronglySorted_app_elim {A : Type} (R : A -> A -> Prop) (l1 l2 : list A) :
  StronglySorted R (l1 ++ l2) ->
  StronglySorted R l1 /\ StronglySorted R l2 /\
  (forall a b, In a l1 -> In b l2 -> R a b).
Proof.
  induction l1 as [| x l1 IH]; cbn [app]; intros H.
  - repeat split; [constructor | exact H | intros a b []].
  - apply StronglySorted_inv in H. destruct H as [H Hx].
    destruct (IH H) as (S1 & S2 & S12).
    apply Forall_app in Hx. destruct Hx as [Hx1 Hx2].
    repeat split.
    + now constructor.
    + exact S2.
    + intros a b [<- | Ha] Hb.
      * rewrite Forall_forall in Hx2. now apply Hx2.
      * now apply S12.
Qed.

Lemma StronglySorted_rev {A : Type} (R : A -> A -> Prop) (l : list A) :
  StronglySorted R l -> StronglySorted (fun a b => R b a) (rev l).
Proof.
  induction l as [| x l IH]; intros H; cbn [rev].
  - constructor.
  - apply StronglySorted_inv in H. destruct H as [H Hx].
    apply StronglySorted_app_intro.
    + now apply IH.
    + repeat constructor.
    + intros a b Ha [<- | []]. apply in_rev in Ha.
      rewrite Forall_forall in Hx. now apply Hx.
Qed.

Lemma StronglySorted_firstn {A : Type} (R : A -> A -> Prop) (n : nat) (l : list A) :
  StronglySorted R l -> StronglySorted R (firstn n l).
Proof.
  intros H. rewrite <- (firstn_skipn n l) in H.
  now apply StronglySorted_app_elim in H.
Qed.

Lemma insert_ASC_perm (x : ChangeHistory.t) (l : list ChangeHistory.t) :
  Permutation (insert_ASC x l) (x :: l).
Proof.
  induction l as [| y l IH]; cbn [insert_ASC].
  - reflexivity.
  - destruct (ChangeHistory.createdAt x <=? ChangeHistory.createdAt y).
    + reflexivity.
    + rewrite IH. apply perm_swap.
Qed.

Lemma stable_order_ASC_perm (l : list ChangeHistory.t) :
  Permutation (stable_order_ASC l) l.
Proof.
  unfold stable_order_ASC.
  induction l as [| x l IH]; cbn [fold_right].
  - reflexivity.
  - rewrite insert_ASC_perm. now constructor.
Qed.

Lemma insert_ASC_sorted (x : ChangeHistory.t) (l : list ChangeHistory.t) :
  StronglySorted not_after l -> StronglySorted not_after (insert_ASC x l).
Proof.
  induction l as [| y l IH]; intros H; cbn [insert_ASC].
  - repeat constructor.
  - apply StronglySorted_inv in H. destruct H as [H Hy].
    destruct (Z.leb_spec (ChangeHistory.createdAt x) (ChangeHistory.createdAt y))
      as [Hxy | Hxy].
    + constructor.
      * now constructor.
      * constructor; [exact Hxy |].
        apply Forall_forall. intros z Hz. rewrite Forall_forall in Hy.
        specialize (Hy z Hz). unfold not_after in *. lia.
    + constructor.
      * now apply IH.
      * apply Forall_forall. intros z Hz.
        apply (Permutation_in _ (insert_ASC_perm x l)) in Hz.
        destruct Hz as [<- | Hz].
        -- unfold not_after. lia.
        -- rewrite Forall_forall in Hy. now apply Hy.
Qed.

Lemma stable_order_ASC_sorted (l : list ChangeHistory.t) :
  StronglySorted not_after (stable_order_ASC l).
Proof.
  unfold stable_order_ASC.
  induction l as [| x l IH]; cbn [fold_right].
  - constructor.
  - now apply insert_ASC_sorted.
Qed.

Lemma stable_order_DESC_sorted (l : list ChangeHistory.t) :
  StronglySorted not_before (stable_order_DESC l).
Proof.
  unfold stable_order_DESC.
  apply (StronglySorted_rev not_after). apply stable_order_ASC_sorted.
Qed.

Lemma stable_order_DESC_perm (l : list ChangeHistory.t) :
  Permutation (stable_order_DESC l) l.
Proof.
  unfold stable_order_DESC.
  rewrite <- Permutation_rev. apply stable_order_ASC_perm.
Qed.

Lemma held_order_DESC_sorted (l : list ChangeHistory.t) :
  StronglySorted not_before (held_order_DESC l).
Proof.
  unfold held_order_DESC.
  apply (StronglySorted_rev not_after). apply stable_order_ASC_sorted.
Qed.

Lemma held_order_DESC_perm (l : list ChangeHistory.t) :
  Permutation (held_order_DESC l) l.
Proof.
  unfold held_order_DESC.
  rewrite <- Permutation_rev, stable_order_ASC_perm.
  symmetry. apply Permutation_rev.
Qed.


Lemma findByPk_ResourceData_none (resourceId : Z) (d : db) :
  findByPk_ResourceData resourceId d = None <->
  ~ resolves_in_catalog resourceId d.
Proof.
  unfold findByPk_ResourceData, resolves_in_catalog. split.
  - intros H (rd & Hin & Hid). apply (find_none _ _ H) in Hin. cbn in Hin.
    apply Z.eqb_neq in Hin. contradiction.
  - intros H. apply find_none_forall. intros rd Hin. apply Z.eqb_neq.
    intros Hid. apply H. now exists rd.
Qed.

Lemma map_entry_include (d : db) (l : list ChangeHistory.t) :
  map HistoryRow.entry (map (include_history_resourceData d) l) = l.
Proof.
  rewrite map_map. cbn. apply map_id.
Qed.

Lemma In_firstn {A : Type} (n : nat) (l : list A) (x : A) :
  In x (firstn n l) -> In x l.
Proof.
  intros H. rewrite <- (firstn_skipn n l). apply in_or_app. now left.
Qed.

Lemma getHistoryStats_not_sentinel (now resourceId : Z) (d : db)
    (resourceData : ResourceData.t) (s : string) :
  findByPk_ResourceData resourceId d = Some resourceData ->
  getHistoryStatsService now resourceId d <> Some (Sentinel s).
Proof.
  intros H. unfold getHistoryStatsService. rewrite H.
  destruct (Nat.eqb _ 0); [discriminate |].
  destruct (js_div _ _); [| discriminate].
  destruct (if negb _ then _ else _); discriminate.
Qed.

(** C9.  The history query returns RESOURCE_NOT_FOUND exactly when the
    given id does not resolve in the catalog; the table of resource states
    plays no part in its result.  Otherwise it returns rows whose entries
    all belong to the given type, ordered newest first, at most [limit] of
    them (100 when no limit is given), and they are the newest ones: the
    entries of the type left out are none of them newer than a returned
    one, and some are left out only when [limit] entries are returned.
    The statistics service returns RESOURCE_NOT_FOUND under the same
    condition on the catalog, whatever the table of resource states. *)
Theorem history_query_catalog_check (resourceId : Z) (limit : option nat)
    (d : db) :
  let n := match limit with Some n => n | None => 100%nat end in
  (getResourceHistoryService resourceId limit d = Sentinel "RESOURCE_NOT_FOUND"
   <-> ~ resolves_in_catalog resourceId d) /\
  (forall rs,
     getResourceHistoryService resourceId limit (with_resources d rs) =
     getResourceHistoryService resourceId limit d) /\
  (resolves_in_catalog resourceId d ->
   exists rows rest,
     getResourceHistoryService resourceId limit d = Value rows /\
     (length rows <= n)%nat /\
     StronglySorted not_before (map HistoryRow.entry rows) /\
     Permutation
       (map HistoryRow.entry rows ++ rest)
       (filter (fun h => ChangeHistory.resourceId h =? resourceId)
               (change_history d)) /\
     (forall h, In h (map HistoryRow.entry rows) ->
                In h (change_history d) /\
                ChangeHistory.resourceId h = resourceId) /\
     (forall a b, In a (map HistoryRow.entry rows) -> In b rest ->
                  not_before a b) /\
     (rest <> [] -> length rows = n)) /\
  (forall now,
     getHistoryStatsService now resourceId d
     = Some (Sentinel "RESOURCE_NOT_FOUND")
     <-> ~ resolves_in_catalog resourceId d) /\
  (forall now rs,
     getHistoryStatsService now resourceId (with_resources d rs) =
     getHistoryStatsService now resourceId d).
Proof using Type order_createdAt_DESC_perm order_createdAt_DESC_sorted.
  cbn zeta. split; [| split; [| split; [| split]]].
  - rewrite <- findByPk_ResourceData_none. unfold getResourceHistoryService.
    destruct (findByPk_ResourceData resourceId d); split; intros H;
      try discriminate; reflexivity.
  - intros rs. reflexivity.
  - intros Hres.
    destruct (findByPk_ResourceData resourceId d) as [rd |] eqn:Hcat.
    2:{ apply findByPk_ResourceData_none in Hcat. contradiction. }
    unfold getResourceHistoryService. rewrite Hcat.
    set (n := match limit with Some n => n | None => default_limit end).
    set (sorted := order_createdAt_DESC
                     (filter (fun h => ChangeHistory.resourceId h =? resourceId)
                             (change_history d))).
    exists (map (include_history_resourceData d) (firstn n sorted)),
           (skipn n sorted).
    rewrite map_entry_include, length_map.
    split; [reflexivity |].
    split; [apply firstn_le_length |].
    split; [apply StronglySorted_firstn, order_createdAt_DESC_sorted |].
    split; [rewrite firstn_skipn; apply order_createdAt_DESC_perm |].
    split; [| split].
    + intros h Hh. apply In_firstn in Hh.
      apply (Permutation_in _ (order_createdAt_DESC_perm _)) in Hh.
      apply filter_In in Hh. destruct Hh as [Hin Heq].
      split; [exact Hin | now apply Z.eqb_eq].
    + pose proof (order_createdAt_DESC_sorted
                    (filter (fun h => ChangeHistory.resourceId h =? resourceId)
                            (change_history d))) as Hs.
      fold sorted in Hs. rewrite <- (firstn_skipn n sorted) in Hs.
      apply StronglySorted_app_elim in Hs. exact (proj2 (proj2 Hs)).
    + intros Hrest. rewrite length_firstn.
      destruct (Nat.le_gt_cases (length sorted) n) as [Hle | Hgt].
      * exfalso. apply Hrest. now apply skipn_all2.
      * change (Nat.min n (length sorted) = n). apply Nat.min_l. lia.
  - intros now. rewrite <- findByPk_ResourceData_none.
    destruct (findByPk_ResourceData resourceId d) as [rd |] eqn:Hcat.
    + split; [| discriminate]. intros H.
      now apply (getHistoryStats_not_sentinel now resourceId d rd) in H.
    + unfold getHistoryStatsService. rewrite Hcat.
      split; intros _; reflexivity.
  - intros now rs. reflexivity.
Qed.

(** ** Retention sweep *)

Lemma length_filter_split {A : Type} (f : A -> bool) (l : list A) :
  length l = (length (filter f l) + length (filter (fun a => negb (f a)) l))%nat.
Proof.
  induction l as [| a l IH]; cbn [filter length].
  - reflexivity.
  - destruct (f a); cbn [negb length]; lia.
Qed.

(** The three dates the services compute: each is the instant whose local
    time is the local time of [now] less the given span. *)
Lemma setHours_getHours (now hours : Z) :
  setHours now (getHours now - hours) = local_time_back now (hours * 3600000).
Proof.
  unfold setHours, getHours, local_time_back. f_equal.
  unfold MakeDate, MakeTime, Day, HourFromTime, MinFromTime, SecFromTime,
    msFromTime, msPerDay, msPerHour, msPerMinute, msPerSecond.
  generalize (LocalTime now). intros t.
  Z.to_euclidean_division_equations. lia.
Qed.

Lemma setMinutes_getMinutes (now minutes : Z) :
  setMinutes now (getMinutes now - minutes)
  = local_time_back now (minutes * 60000).
Proof.
  unfold setMinutes, getMinutes, local_time_back. f_equal.
  unfold MakeDate, MakeTime, Day, HourFromTime, MinFromTime, SecFromTime,
    msFromTime, msPerDay, msPerHour, msPerMinute, msPerSecond.
  generalize (LocalTime now). intros t.
  Z.to_euclidean_division_equations. lia.
Qed.

Lemma setDate_back_days (now days : Z) :
  setDate_back now days = local_time_back now (days * 86400000).
Proof.
  unfold setDate_back, local_time_back. f_equal.
  unfold MakeDate, Day, TimeWithinDay, msPerDay.
  generalize (LocalTime now). intros t.
  Z.to_euclidean_division_equations. lia.
Qed.

(** Where the offset from UTC is the same at both ends, going back in
    local time is going back by as many milliseconds. *)
Lemma local_time_back_fixed_offset (now ms offset : Z) :
  LocalTZA now true = offset ->
  LocalTZA (now + offset - ms) false = offset ->
  local_time_back now ms = now - ms.
Proof.
  intros Hnow Hthen. unfold local_time_back, UTC, LocalTime.
  rewrite Hnow, Hthen. lia.
Qed.

(** C8.  One firing of the retention sweep at instant [now] keeps exactly
    the history rows whose [createdAt] is not before the boundary, in
    their order: a row is deleted exactly when its [createdAt] is strictly
    before the boundary, and a row exactly at it is retained.  The
    boundary is the instant whose local time, in the time zone of the
    server, is that of [now] thirty days of the calendar earlier; it is
    [now] minus 30 times 24 hours when the offset of the zone from UTC is
    the same at both instants.  The count the sweep reports is the number
    of rows deleted.  The other two tables are untouched. *)
Theorem history_cleanup_boundary (now : Z) (d : db) :
  let boundary := local_time_back now (30 * 86400000) in
  let deleted := fst (historyCleanupTick now d) in
  let d' := snd (historyCleanupTick now d) in
  (forall h, In h (change_history d') <->
             In h (change_history d) /\ boundary <= ChangeHistory.createdAt h) /\
  (forall h, In h (change_history d) ->
             (~ In h (change_history d') <-> ChangeHistory.createdAt h < boundary)) /\
  (forall h, In h (change_history d) -> ChangeHistory.createdAt h = boundary ->
             In h (change_history d')) /\
  change_history d' =
    filter (fun h => boundary <=? ChangeHistory.createdAt h) (change_history d) /\
  deleted =
    length (filter (fun h => ChangeHistory.createdAt h <? boundary)
                   (change_history d)) /\
  length (change_history d) = (deleted + length (change_history d'))%nat /\
  resources d' = resources d /\
  resource_data d' = resource_data d /\
  (forall offset,
     LocalTZA now true = offset ->
     LocalTZA (now + offset - 30 * 86400000) false = offset ->
     boundary = now - 30 * 86400000).
Proof.
  cbn zeta. unfold historyCleanupTick. rewrite setDate_back_days.
  set (boundary := local_time_back now (30 * 86400000)).
  cbn [fst snd change_history resources resource_data].
  assert (forall h, In h (filter (fun h0 => negb (ChangeHistory.createdAt h0 <? boundary))
                            (change_history d)) <->
                    In h (change_history d) /\
                    boundary <= ChangeHistory.createdAt h) as Hkept.
  { intros h. rewrite filter_In, negb_true_iff, Z.ltb_ge. reflexivity. }
  repeat match goal with |- _ /\ _ => split end.
  - apply Hkept.
  - intros h Hin. split.
    + intros Hnot.
      destruct (Z.lt_ge_cases (ChangeHistory.createdAt h) boundary)
        as [Hlt | Hge]; [exact Hlt |].
      exfalso. apply Hnot. apply Hkept. split; [exact Hin | lia].
    + intros Hlt Hkeep. apply Hkept in Hkeep. lia.
  - intros h Hin Heq. apply Hkept. split; [exact Hin | lia].
  - apply filter_ext. intros h.
    destruct (Z.ltb_spec (ChangeHistory.createdAt h) boundary);
      destruct (Z.leb_spec boundary (ChangeHistory.createdAt h));
      cbn; try reflexivity; lia.
  - reflexivity.
  - apply length_filter_split.
  - reflexivity.
  - reflexivity.
  - intros offset. apply local_time_back_fixed_offset.
Qed.

(** ** Snapshot *)




(** ** Statistics *)













(** * Further properties of the services *)

(** ** Reading back what was written *)

Lemma include_same_catalog (d d' : db) (r : Resource.t) :
  resource_data d' = resource_data d ->
  include_resourceData d' r = include_resourceData d r.
Proof.
  intros H. unfold include_resourceData, findByPk_ResourceData. now rewrite H.
Qed.

Lemma enrich_fields (resource : Loaded.t) (e : Enriched.t) :
  enrich resource = Returned e ->
  exists resourceData levels,
    Loaded.resourceData resource = Some resourceData /\
    getLevelsByCategory (ResourceData.category resourceData) = Some levels /\
    Enriched.id e = Loaded.id resource /\
    Enriched.quantity e = Loaded.quantity resource /\
    Enriched.resourceDataId e = Loaded.resourceDataId resource /\
    Enriched.resourceData e = resourceData /\
    Enriched.criticalLevel e = lv_criticalLevel levels /\
    Enriched.minimumLevel e = lv_minimumLevel levels /\
    Enriched.status e = status_of (Loaded.quantity resource) levels.
Proof.
  unfold enrichResourceWithLevels.
  destruct (Loaded.resourceData resource) as [rd |]; [| discriminate].
  destruct (getLevelsByCategory (ResourceData.category rd)) as [lv |] eqn:Hlv;
    [| discriminate].
  intros H. inversion H; subst; clear H. exists rd, lv. cbn.
  destruct rd. repeat split; auto.
Qed.

(** What a successful quantity update tells about its arguments. *)
Lemma updateQuantity_returned_value (faults : fault_plan) (now id : Z)
    (quantity : jsval) (d d' : db) (e : Enriched.t) :
  updateQuantity faults now id quantity d = (Returned (Value e), d') ->
  exists q resource,
    quantity = JNum q /\ 0 <= q /\
    findByPk_Resource id d = Some resource /\
    d' = updated_store now q resource d /\
    enrich (set_quantity (include_resourceData d resource) q) = Returned e.
Proof.
  intros H.
  destruct (invalid_quantity quantity) eqn:Hinv.
  { rewrite (updateQuantity_invalid faults now id quantity d Hinv) in H.
    discriminate. }
  destruct (valid_quantity_JNum _ Hinv) as (q & -> & Hq).
  destruct (findByPk_Resource id d) as [resource |] eqn:Hfind.
  - rewrite (updateQuantity_resolved faults now id q d resource Hfind Hq) in H.
    destruct (faults AtSave || faults AtCreate || faults AtCommit);
      [discriminate |].
    destruct (enrich (set_quantity (include_resourceData d resource) q))
      as [e' | err] eqn:He; [| discriminate].
    inversion H; subst. exists q, resource. repeat split; auto.
  - unfold updateResourceQuantityService, findByPk_Resource_include in H.
    rewrite Hinv, Hfind in H. discriminate.
Qed.

(** X1.  Read your write: after a successful quantity update,
    [getResourceByIdService] for the same key returns the very view the
    update returned, and for every other key it returns what it returned
    before the update. *)
Theorem getById_after_update (faults : fault_plan) (now id : Z)
    (quantity : jsval) (d d' : db) (e : Enriched.t) :
  updateQuantity faults now id quantity d = (Returned (Value e), d') ->
  getById id d' = Returned (Some e) /\
  forall pk, pk <> id -> getById pk d' = getById pk d.
Proof.
  intros H.
  destruct (updateQuantity_returned_value _ _ _ _ _ _ _ H)
    as (q & resource & -> & Hq & Hfind & -> & He).
  pose proof (findByPk_Resource_id _ _ _ Hfind) as Hid.
  assert (forall r, include_resourceData (updated_store now q resource d) r
                    = include_resourceData d r) as Hinc
    by (intros r; now apply include_same_catalog).
  unfold getResourceByIdService, findByPk_Resource_include. split.
  - rewrite findByPk_updated_store, Hfind. cbn [option_map].
    rewrite Z.eqb_refl, Hinc.
    change (include_resourceData d (with_quantity resource q))
      with (set_quantity (include_resourceData d resource) q).
    now rewrite He.
  - intros pk Hpk. rewrite findByPk_updated_store.
    destruct (findByPk_Resource pk d) as [r |] eqn:E; [| reflexivity].
    cbn [option_map]. apply findByPk_Resource_id in E.
    destruct (Z.eqb_spec (Resource.id r) (Resource.id resource)); [lia |].
    now rewrite Hinc.
Qed.

(** What a successful creation tells about its arguments. *)
Lemma create_returned_value (data : CreateData) (d d' : db) (e : Enriched.t) :
  create data d = (Returned (Value e), d') ->
  exists rdid q resourceData,
    cd_resourceDataId data = JNum rdid /\ rdid <> 0 /\
    cd_quantity data = JNum q /\ 0 <= q /\
    findByPk_ResourceData rdid d = Some resourceData /\
    findOne_Resource_by_resourceDataId rdid d = None /\
    d' = snd (Resource_create rdid q d) /\
    enrich (include_resourceData d' (fst (Resource_create rdid q d)))
    = Returned e.
Proof.
  destruct data as [rid quantity]. unfold createResourceService.
  cbn [cd_resourceDataId cd_quantity].
  destruct (js_not rid) eqn:Hnot; [discriminate |].
  destruct (invalid_quantity quantity) eqn:Hinv; [discriminate |].
  destruct (valid_quantity_JNum _ Hinv) as (q & -> & Hq).
  destruct rid as [| | rdid]; try discriminate.
  cbn [js_number js_not] in *. apply Z.eqb_neq in Hnot.
  destruct (findByPk_ResourceData rdid d) as [rd |] eqn:Hcat; [| discriminate].
  destruct (findOne_Resource_by_resourceDataId rdid d) eqn:Hone;
    [discriminate |].
  pose proof (findByPk_created rdid q d) as Hback.
  destruct (Resource_create rdid q d) as [row d0] eqn:Hcreate.
  cbn [fst snd] in *. rewrite Hback.
  destruct (enrich (include_resourceData d0 row)) as [e' | err] eqn:He;
    [| discriminate].
  intros H. inversion H; subst.
  exists rdid, q, rd. rewrite ?Hcreate. cbn [fst snd].
  repeat split; auto.
Qed.

(** X2.  After a successful creation, [getResourceByIdService] for the id
    of the returned view returns that view, the store has one resource
    state more, and creating a resource state for the same type again,
    with any valid quantity, is refused with RESOURCE_ALREADY_EXISTS and
    changes nothing. *)
Theorem create_then_read_and_conflict (data : CreateData) (d d' : db)
    (e : Enriched.t) :
  create data d = (Returned (Value e), d') ->
  getById (Enriched.id e) d' = Returned (Some e) /\
  length (resources d') = S (length (resources d)) /\
  forall quantity',
    invalid_quantity quantity' = false ->
    create {| cd_resourceDataId := cd_resourceDataId data;
              cd_quantity := quantity' |} d'
    = (Returned (Sentinel "RESOURCE_ALREADY_EXISTS"), d').
Proof.
  intros H.
  destruct (create_returned_value _ _ _ _ H)
    as (rdid & q & rd & Hrid & Hnz & Hquant & Hq & Hcat & Hone & -> & He).
  pose proof (findByPk_created rdid q d) as Hback.
  destruct (enrich_fields _ _ He) as (rd' & lv & _ & _ & Hid & _).
  cbn [include_resourceData Loaded.id] in Hid.
  split; [| split].
  - unfold getResourceByIdService. rewrite Hid, Hback. now rewrite He.
  - unfold Resource_create. cbn [snd resources].
    rewrite length_app. cbn [length]. lia.
  - intros quantity' Hvalid. unfold createResourceService.
    cbn [cd_resourceDataId cd_quantity]. rewrite Hrid, (js_not_JNum _ Hnz), Hvalid.
    cbn [js_number].
    assert (findByPk_ResourceData rdid (snd (Resource_create rdid q d))
            = Some rd) as -> by exact Hcat.
    destruct (findOne_some rdid (snd (Resource_create rdid q d))) as [r ->];
      [| reflexivity].
    exists (fst (Resource_create rdid q d)). split.
    + unfold Resource_create. cbn [fst snd resources].
      apply in_or_app. right. now left.
    + reflexivity.
Qed.

(** ** The list and the filtered reads *)

Lemma map_outcome_cons {A B : Type} (f : A -> outcome B) (a : A) (l : list A)
    (vs : list B) :
  map_outcome f (a :: l) = Returned vs ->
  exists v vs', f a = Returned v /\ map_outcome f l = Returned vs' /\
                vs = v :: vs'.
Proof.
  cbn [map_outcome]. destruct (f a) as [v | e]; [| discriminate].
  destruct (map_outcome f l) as [vs' | e]; [| discriminate].
  intros H. inversion H. eauto.
Qed.

Lemma map_outcome_filter {A B : Type} (f : A -> outcome B) (p : A -> bool)
    (q : B -> bool) (l : list A) (vs : list B) :
  (forall a v, f a = Returned v -> p a = q v) ->
  map_outcome f l = Returned vs ->
  map_outcome f (filter p l) = Returned (filter q vs).
Proof.
  intros Hpq. revert vs. induction l as [| a l IH]; intros vs H.
  - cbn in H. inversion H. reflexivity.
  - destruct (map_outcome_cons _ _ _ _ H) as (v & vs' & Ha & Hl & ->).
    cbn [filter]. rewrite <- (Hpq a v Ha).
    destruct (p a); cbn [map_outcome]; rewrite ?Ha, (IH vs' Hl); reflexivity.
Qed.

Lemma filter_outcome_total {A : Type} (f : A -> outcome bool) (p : A -> bool)
    (l : list A) :
  (forall a, In a l -> f a = Returned (p a)) ->
  filter_outcome f l = Returned (filter p l).
Proof.
  induction l as [| a l IH]; intros H; cbn [filter_outcome filter].
  - reflexivity.
  - rewrite (H a (or_introl eq_refl)), IH by (intros b Hb; apply H; now right).
    reflexivity.
Qed.

Lemma map_outcome_In {A B : Type} (f : A -> outcome B) (l : list A)
    (vs : list B) (a : A) :
  map_outcome f l = Returned vs -> In a l -> exists v, f a = Returned v.
Proof.
  revert vs. induction l as [| b l IH]; intros vs H Hin; [contradiction |].
  destruct (map_outcome_cons _ _ _ _ H) as (v & vs' & Hb & Hl & _).
  destruct Hin as [<- | Hin]; [eauto | exact (IH vs' Hl Hin)].
Qed.

(** X3.  The single read agrees with the list: when
    [getAllResourcesService] returns, [getResourceByIdService] returns for
    every key the first view of the list with that id, and [null] when the
    list has none. *)
Theorem getById_agrees_with_list (d : db) (views : list Enriched.t) :
  listAll d = Returned views ->
  forall id,
    getById id d = Returned (find (fun e => Enriched.id e =? id) views).
Proof.
  unfold getAllResourcesService, getResourceByIdService,
    findByPk_Resource_include, findByPk_Resource, findAll_Resource_include.
  intros H id. revert views H.
  induction (resources d) as [| r rs IH]; intros views H.
  - cbn in H. inversion H. reflexivity.
  - cbn [map] in H.
    destruct (map_outcome_cons _ _ _ _ H) as (v & vs & Hr & Hrs & ->).
    destruct (enrich_fields _ _ Hr) as (_ & _ & _ & _ & Hid & _).
    cbn [include_resourceData Loaded.id] in Hid.
    cbn [find]. rewrite Hid.
    destruct (Resource.id r =? id).
    + cbn [option_map]. now rewrite Hr.
    + exact (IH vs Hrs).
Qed.



(** X5.  When [isResourceCritical] tests the quantity against the
    critical level of the category, and [getAllResourcesService] returns,
    [getCriticalResourcesService] returns exactly the views of that list
    whose status is "critical", in the order of the list. *)
Theorem critical_filters_list (isResourceCritical : Z -> string -> bool)
    (d : db) (views : list Enriched.t) :
  (forall quantity category levels,
     getLevelsByCategory category = Some levels ->
     isResourceCritical quantity category
     = (quantity <=? lv_criticalLevel levels)) ->
  listAll d = Returned views ->
  getCriticalResourcesService isResourceCritical d
  = Returned (filter (fun e => is_critical (Enriched.status e)) views).
Proof.
  intros Hcrit Hall. unfold getCriticalResourcesService.
  unfold getAllResourcesService in Hall.
  set (p := fun l : Loaded.t =>
              match Loaded.resourceData l with
              | Some rd => isResourceCritical (Loaded.quantity l)
                             (ResourceData.category rd)
              | None => false
              end).
  rewrite (filter_outcome_total _ p).
  - apply map_outcome_filter; [| exact Hall].
    intros l e He.
    destruct (enrich_fields _ _ He)
      as (rd & lv & Hrd & Hlv & _ & _ & _ & _ & _ & _ & Hst).
    unfold p. rewrite Hrd, Hst, (Hcrit _ _ _ Hlv). unfold status_of.
    destruct (Loaded.quantity l <=? lv_criticalLevel lv); [reflexivity |].
    now destruct (Loaded.quantity l <=? lv_minimumLevel lv).
  - intros l Hl. destruct (map_outcome_In _ _ _ _ Hall Hl) as [e He].
    destruct (enrich_fields _ _ He) as (rd & _ & Hrd & _).
    unfold p. now rewrite Hrd.
Qed.

Lemma resolves_findByPk (resourceId : Z) (d : db) :
  resolves_in_catalog resourceId d ->
  exists rd, findByPk_ResourceData resourceId d = Some rd /\
             In rd (resource_data d).
Proof.
  intros H. destruct (findByPk_ResourceData resourceId d) as [rd |] eqn:E.
  - exists rd. split; [reflexivity |].
    unfold findByPk_ResourceData in E. now apply find_some in E.
  - apply findByPk_ResourceData_none in E. contradiction.
Qed.

(** The views of [getAllResourcesService] against the rows it loaded. *)
Lemma listAll_views (d : db) :
  types_resolve d ->
  (forall rd, In rd (resource_data d) ->
              getLevelsByCategory (ResourceData.category rd) <> None) ->
  exists views,
    listAll d = Returned views /\
    Forall2
      (fun r e =>
         exists rd levels,
           findByPk_ResourceData (Resource.resourceDataId r) d = Some rd /\
           getLevelsByCategory (ResourceData.category rd) = Some levels /\
           view_of levels r e)
      (resources d) views.
Proof.
  intros Hres Hlv. unfold getAllResourcesService, findAll_Resource_include.
  unfold types_resolve in Hres.
  induction (resources d) as [| r rs IH].
  - exists []. split; [reflexivity | constructor].
  - destruct IH as (vs & Hvs & Hall);
      [intros r' Hr'; apply Hres; now right |].
    destruct (resolves_findByPk _ _ (Hres r (or_introl eq_refl)))
      as (rd & Hfind & Hin).
    destruct (getLevelsByCategory (ResourceData.category rd)) as [lv |] eqn:El;
      [| exfalso; exact (Hlv rd Hin El)].
    cbn [map map_outcome].
    unfold enrichResourceWithLevels at 1.
    cbn [include_resourceData Loaded.resourceData]. rewrite Hfind, El, Hvs.
    eexists. split; [reflexivity |]. constructor; [| exact Hall].
    exists rd, lv. split; [exact Hfind |]. split; [exact El |].
    unfold view_of. cbn. repeat split; reflexivity.
Qed.

Lemma paired_views {A B : Type} (P : A -> B -> Prop) (l : list A) (l' : list B) :
  Forall2 P l l' ->
  (forall a, In a l -> exists b, In b l' /\ P a b) /\
  (forall b, In b l' -> exists a, In a l /\ P a b).
Proof.
  induction 1 as [| a b l l' Hab _ [IHl IHr]].
  - split; intros x [].
  - split.
    + intros x [<- | Hx]; [exists b; split; [now left | exact Hab] |].
      destruct (IHl x Hx) as (y & Hy & Hxy). exists y. split; [now right | exact Hxy].
    + intros y [<- | Hy]; [exists a; split; [now left | exact Hab] |].
      destruct (IHr y Hy) as (x & Hx & Hxy). exists x. split; [now right | exact Hxy].
Qed.

(** X6.  When every resource state references a catalog entry and every
    category of the catalog has levels, [getAllResourcesService] does not
    throw: it returns as many views as there are resource states, every
    resource state has its view in the list and every view of the list is
    the view of a resource state, with the id, quantity and type of that
    row and the status the levels of its category give.  Nothing is said
    on the order of the list. *)
Theorem listAll_returns (d : db) :
  types_resolve d ->
  (forall rd, In rd (resource_data d) ->
              getLevelsByCategory (ResourceData.category rd) <> None) ->
  exists views,
    listAll d = Returned views /\
    length views = length (resources d) /\
    (forall r, In r (resources d) ->
       exists e rd levels,
         In e views /\
         findByPk_ResourceData (Resource.resourceDataId r) d = Some rd /\
         getLevelsByCategory (ResourceData.category rd) = Some levels /\
         view_of levels r e) /\
    (forall e, In e views ->
       exists r rd levels,
         In r (resources d) /\
         findByPk_ResourceData (Resource.resourceDataId r) d = Some rd /\
         getLevelsByCategory (ResourceData.category rd) = Some levels /\
         view_of levels r e).
Proof.
  intros Hres Hlv.
  destruct (listAll_views d Hres Hlv) as (views & Hall & Hviews).
  exists views. split; [exact Hall |].
  split; [symmetry; exact (Forall2_length Hviews) |].
  destruct (paired_views _ _ _ Hviews) as [Hl Hr]. split.
  - intros r Hin. destruct (Hl r Hin) as (e & He & rd & lv & H).
    exists e, rd, lv. split; [exact He | exact H].
  - intros e Hin. destruct (Hr e Hin) as (r & Hr' & rd & lv & H).
    exists r, rd, lv. split; [exact Hr' | exact H].
Qed.

(** ** The history ledger *)

(** X7.  [createChangeHistoryService] checks the stock first: it returns
    INVALID_STOCK exactly when the stock is [undefined], [null], 0 or
    negative, whatever the resource id, so a stock of 0, which a quantity
    update records, cannot be recorded by hand.  Every failure leaves the
    store unchanged.  With a positive stock and the id of a catalog entry
    it returns the new row and appends exactly that row to the ledger,
    with the stock, the type and the instant given and no change type; the
    other tables are untouched. *)
Theorem createChangeHistory_checks (now : Z) (data : HistoryData) (d : db) :
  (fst (createChangeHistoryService now data d) = Sentinel "INVALID_STOCK"
   <-> absent (hd_stock data) \/
       exists n, hd_stock data = JNum n /\ n <= 0) /\
  (forall s, fst (createChangeHistoryService now data d) = Sentinel s ->
             snd (createChangeHistoryService now data d) = d) /\
  (forall n rid,
     hd_stock data = JNum n -> 0 < n ->
     hd_resourceId data = JNum rid -> rid <> 0 ->
     (~ resolves_in_catalog rid d ->
      createChangeHistoryService now data d
      = (Sentinel "RESOURCE_NOT_FOUND", d)) /\
     (resolves_in_catalog rid d ->
      exists row,
        createChangeHistoryService now data d =
        (Value row,
         {| resource_data := resource_data d;
            resources := resources d;
            change_history := change_history d ++ [row] |}) /\
        ChangeHistory.stock row = n /\
        ChangeHistory.resourceId row = rid /\
        ChangeHistory.createdAt row = now /\
        ChangeHistory.changeType row = None /\
        forall h, In h (change_history d) ->
                  ChangeHistory.id h <> ChangeHistory.id row)).
Proof.
  destruct data as [stock rid]. cbn [hd_stock hd_resourceId].
  unfold createChangeHistoryService. cbn [hd_stock hd_resourceId].
  split; [| split].
  - destruct stock as [| | n]; cbn [js_not js_lt_zero orb fst].
    + split; [intros _; left; now left | reflexivity].
    + split; [intros _; left; now right | reflexivity].
    + destruct (Z.eqb_spec n 0) as [Hz | Hnz]; cbn [orb].
      * split; [intros _; right; exists n; split; [reflexivity | lia]
               | reflexivity].
      * destruct (Z.ltb_spec n 0) as [Hneg | Hpos].
        -- split; [intros _; right; exists n; split; [reflexivity | lia]
                  | reflexivity].
        -- split.
           ++ destruct (js_not rid); [discriminate |].
              destruct (findByPk_ResourceData (js_number rid) d);
                discriminate.
           ++ intros [[H | H] | (m & H & Hm)]; try discriminate.
              inversion H. lia.
  - intros s.
    destruct (js_not stock || js_lt_zero stock); [reflexivity |].
    destruct (js_not rid); [reflexivity |].
    destruct (findByPk_ResourceData (js_number rid) d);
      [discriminate | reflexivity].
  - intros n r -> Hn -> Hr. cbn [js_not js_lt_zero js_number].
    destruct (Z.eqb_spec n 0); [lia |].
    destruct (Z.ltb_spec n 0); [lia |]. cbn [orb].
    destruct (Z.eqb_spec r 0); [contradiction |]. split.
    + intros Hno. apply findByPk_ResourceData_none in Hno. now rewrite Hno.
    + intros Hres. destruct (resolves_findByPk _ _ Hres) as (rd & -> & _).
      eexists. split; [reflexivity |].
      cbn [ChangeHistory_new_row ChangeHistory.stock ChangeHistory.resourceId
           ChangeHistory.createdAt ChangeHistory.changeType ChangeHistory.id].
      repeat split.
      intros h Hh.
      pose proof (next_id_above (map ChangeHistory.id (change_history d))
                    (ChangeHistory.id h) (in_map ChangeHistory.id _ _ Hh)).
      lia.
Qed.

Lemma map_entry_include_rows (d : db) (l : list ChangeHistory.t) :
  map HistoryRow.entry (map (include_history_resourceData d) l) = l.
Proof. rewrite map_map. cbn. apply map_id. Qed.

(** X8.  [getRecentHistoryService] at instant [now] returns, newest first,
    exactly the history rows of all types recorded at or after the
    cut-off, the row at exactly that instant included.  The cut-off is the
    instant whose local time, in the time zone of the server, is that of
    [now] less the given minutes (60 when none is given): [now] less that
    many minutes when the offset of the zone from UTC is the same at both
    instants.  A query whose cut-off is not later returns every row this
    one returns. *)
Theorem recentHistory_window (now : Z) (minutes : option Z) (d : db) :
  let m := match minutes with Some m => m | None => 60 end in
  let cutoff := local_time_back now (m * 60000) in
  let entries := map HistoryRow.entry (getRecentHistoryService now minutes d) in
  StronglySorted not_before entries /\
  Permutation entries
    (filter (fun h => cutoff <=? ChangeHistory.createdAt h)
            (change_history d)) /\
  (forall h, In h entries <->
             In h (change_history d) /\
             cutoff <= ChangeHistory.createdAt h) /\
  (forall m', local_time_back now (m' * 60000) <= cutoff ->
     forall h, In h entries ->
               In h (map HistoryRow.entry
                       (getRecentHistoryService now (Some m') d))) /\
  (forall offset,
     LocalTZA now true = offset ->
     LocalTZA (now + offset - m * 60000) false = offset ->
     cutoff = now - m * 60000).
Proof using Type order_createdAt_DESC_perm order_createdAt_DESC_sorted.
  cbn zeta. unfold getRecentHistoryService.
  rewrite !map_entry_include_rows.
  set (m := match minutes with Some m => m | None => 60 end).
  assert (forall k h,
            In h (order_createdAt_DESC
                    (filter (fun h0 => ChangeHistory.createdAt h0
                                       >=? setMinutes now (getMinutes now - k))
                            (change_history d)))
            <-> In h (change_history d) /\
                local_time_back now (k * 60000) <= ChangeHistory.createdAt h)
    as Hin.
  { intros k h. rewrite setMinutes_getMinutes. split.
    - intros H. apply (Permutation_in _ (order_createdAt_DESC_perm _)) in H.
      apply filter_In in H. destruct H as [H1 H2]. split; [exact H1 |].
      apply Z.geb_le in H2. lia.
    - intros [H1 H2].
      apply (Permutation_in _ (Permutation_sym (order_createdAt_DESC_perm _))).
      apply filter_In. split; [exact H1 |]. apply Z.geb_le. lia. }
  split; [apply order_createdAt_DESC_sorted |].
  split; [| split; [| split]].
  - rewrite order_createdAt_DESC_perm, setMinutes_getMinutes.
    assert (forall (c : Z) (l : list ChangeHistory.t),
              filter (fun h => ChangeHistory.createdAt h >=? c) l
              = filter (fun h => c <=? ChangeHistory.createdAt h) l)
      as ->; [| reflexivity].
    intros c l. apply filter_ext. intros h.
    destruct (Z.geb_spec (ChangeHistory.createdAt h) c);
      destruct (Z.leb_spec c (ChangeHistory.createdAt h));
      try reflexivity; lia.
  - intros h. apply Hin.
  - intros m' Hm h Hh. rewrite map_entry_include_rows.
    apply Hin. apply Hin in Hh. destruct Hh as [H1 H2]. split; [exact H1 | lia].
  - intros offset. apply local_time_back_fixed_offset.
Qed.


(** X10.  A quantity update touches the history of one type only: the
    history query for any other type returns after the call, whatever its
    outcome, what it returned before. *)
Theorem update_keeps_other_history (faults : fault_plan) (now id : Z)
    (quantity : jsval) (d : db) (resource : Resource.t) (other : Z)
    (limit : option nat) :
  findByPk_Resource id d = Some resource ->
  other <> Resource.resourceDataId resource ->
  getResourceHistoryService other limit
    (snd (updateQuantity faults now id quantity d))
  = getResourceHistoryService other limit d.
Proof.
  intros Hfind Hother.
  destruct (invalid_quantity quantity) eqn:Hinv.
  { now rewrite (updateQuantity_invalid faults now id quantity d Hinv). }
  destruct (valid_quantity_JNum _ Hinv) as (q & -> & Hq).
  rewrite (updateQuantity_resolved faults now id q d resource Hfind Hq).
  destruct (faults AtSave || faults AtCreate || faults AtCommit);
    [reflexivity |].
  cbn [snd]. unfold getResourceHistoryService.
  assert (findByPk_ResourceData other (updated_store now q resource d)
          = findByPk_ResourceData other d) as -> by reflexivity.
  destruct (findByPk_ResourceData other d); [| reflexivity].
  rewrite change_history_updated_store, filter_app.
  cbn [filter ChangeHistory.resourceId].
  destruct (Z.eqb_spec (Resource.resourceDataId resource) other); [lia |].
  rewrite app_nil_r. reflexivity.
Qed.

(** ** The retention sweep and the queries *)

Lemma filter_filter_implied {A : Type} (p k : A -> bool) (l : list A) :
  (forall x, p x = true -> k x = true) ->
  filter p (filter k l) = filter p l.
Proof.
  intros H. induction l as [| a l IH]; cbn [filter].
  - reflexivity.
  - destruct (k a) eqn:Ek; cbn [filter].
    + now rewrite IH.
    + destruct (p a) eqn:Ep; [| exact IH].
      rewrite (H a Ep) in Ek. discriminate.
Qed.

(** The sweep by its boundary. *)
Lemma cleanup_by_boundary (now : Z) (d : db) :
  let boundary := local_time_back now (30 * 86400000) in
  historyCleanupTick now d =
  (length (filter (fun h => ChangeHistory.createdAt h <? boundary)
                  (change_history d)),
   {| resource_data := resource_data d;
      resources := resources d;
      change_history :=
        filter (fun h => negb (ChangeHistory.createdAt h <? boundary))
               (change_history d) |}).
Proof.
  cbn zeta. unfold historyCleanupTick. now rewrite setDate_back_days.
Qed.

Lemma cleanup_history (now : Z) (d : db) :
  change_history (snd (historyCleanupTick now d)) =
  filter (fun h => local_time_back now (30 * 86400000)
                   <=? ChangeHistory.createdAt h)
         (change_history d).
Proof.
  rewrite cleanup_by_boundary. cbn [snd change_history].
  apply filter_ext. intros h.
  destruct (Z.ltb_spec (ChangeHistory.createdAt h)
              (local_time_back now (30 * 86400000)));
    destruct (Z.leb_spec (local_time_back now (30 * 86400000))
                (ChangeHistory.createdAt h));
    cbn; try reflexivity; lia.
Qed.

(** Two deletions of the rows older than a boundary, one after the
    other. *)
Lemma sweep_after_sweep (b1 b2 : Z) (l : list ChangeHistory.t) :
  let old b := fun h => ChangeHistory.createdAt h <? b in
  let kept b := fun h => negb (ChangeHistory.createdAt h <? b) in
  (b1 <= b2 ->
   filter (kept b2) (filter (kept b1) l) = filter (kept b2) l /\
   (length (filter (old b1) l)
    + length (filter (old b2) (filter (kept b1) l)))%nat
   = length (filter (old b2) l)) /\
  (b2 <= b1 ->
   filter (old b2) (filter (kept b1) l) = [] /\
   filter (kept b2) (filter (kept b1) l) = filter (kept b1) l).
Proof.
  cbn zeta. split; intros Hle.
  - induction l as [| h l [IH1 IH2]]; [split; reflexivity |].
    cbn [filter].
    destruct (Z.ltb_spec (ChangeHistory.createdAt h) b1);
      destruct (Z.ltb_spec (ChangeHistory.createdAt h) b2);
      cbn [negb filter length]; try lia;
      repeat match goal with
             | |- context [ChangeHistory.createdAt h <? ?b] =>
               destruct (Z.ltb_spec (ChangeHistory.createdAt h) b); try lia
             end;
      cbn [negb length]; rewrite ?IH1; split; try reflexivity; lia.
  - induction l as [| h l [IH1 IH2]]; [split; reflexivity |].
    cbn [filter].
    destruct (Z.ltb_spec (ChangeHistory.createdAt h) b1);
      cbn [negb filter]; [split; assumption |].
    destruct (Z.ltb_spec (ChangeHistory.createdAt h) b2); [lia |].
    cbn [negb]. rewrite IH2. split; [exact IH1 | reflexivity].
Qed.

(** X11.  Sweeps compose.  A sweep after an earlier sweep leaves the
    ledger a single sweep with the later boundary leaves, and the two
    counts add up to the count of that single sweep; a sweep whose
    boundary is not later than that of the previous one deletes nothing.
    The boundary of a sweep is the instant whose local time is that of the
    sweep thirty days of the calendar earlier. *)
Theorem cleanup_composes (now now2 : Z) (d : db) :
  let boundary := local_time_back now (30 * 86400000) in
  let boundary2 := local_time_back now2 (30 * 86400000) in
  (boundary <= boundary2 ->
   snd (historyCleanupTick now2 (snd (historyCleanupTick now d)))
   = snd (historyCleanupTick now2 d) /\
   (fst (historyCleanupTick now d)
    + fst (historyCleanupTick now2 (snd (historyCleanupTick now d))))%nat
   = fst (historyCleanupTick now2 d)) /\
  (boundary2 <= boundary ->
   historyCleanupTick now2 (snd (historyCleanupTick now d))
   = (0%nat, snd (historyCleanupTick now d))).
Proof.
  cbn zeta. rewrite !cleanup_by_boundary.
  cbn [fst snd change_history resources resource_data].
  destruct (sweep_after_sweep (local_time_back now (30 * 86400000))
              (local_time_back now2 (30 * 86400000)) (change_history d))
    as [Hlater Hearlier].
  split; intros Hle.
  - destruct (Hlater Hle) as [Hkept Hcount]. now rewrite Hkept, Hcount.
  - destruct (Hearlier Hle) as [Hnone Hkept]. now rewrite Hkept, Hnone.
Qed.

Lemma getHistoryStats_ext (t resourceId : Z) (d d' : db) :
  resource_data d' = resource_data d ->
  stats_window t resourceId d' = stats_window t resourceId d ->
  getHistoryStatsService t resourceId d' = getHistoryStatsService t resourceId d.
Proof.
  intros Hcat Hw. unfold getHistoryStatsService, findByPk_ResourceData.
  now rewrite Hcat, Hw.
Qed.

(** X12.  The retention sweep does not disturb the queries on recent
    history: after a sweep at [now], the statistics computed at any
    instant [t] whose window starts no earlier than the boundary of the
    sweep are those computed on the store before the sweep, and so is the
    recent history of the last [m] minutes at [t] when its cut-off is no
    earlier than that boundary.  The three instants are those the code
    computes in the local time of the server. *)
Theorem cleanup_keeps_recent_queries (now t : Z) (d : db) :
  let boundary := local_time_back now (30 * 86400000) in
  (boundary <= local_time_back t 86400000 ->
   forall resourceId,
     getHistoryStatsService t resourceId (snd (historyCleanupTick now d))
     = getHistoryStatsService t resourceId d) /\
  (forall m,
     boundary <= local_time_back t (m * 60000) ->
     getRecentHistoryService t (Some m) (snd (historyCleanupTick now d))
     = getRecentHistoryService t (Some m) d).
Proof.
  cbn zeta. split.
  - intros Hle resourceId. apply getHistoryStats_ext; [reflexivity |].
    unfold stats_window. rewrite cleanup_history. f_equal.
    apply filter_filter_implied. intros h.
    rewrite setHours_getHours. change (24 * 3600000) with 86400000.
    rewrite andb_true_iff, Z.leb_le.
    intros [_ H]. apply Z.geb_le in H. lia.
  - intros m Hle. unfold getRecentHistoryService.
    assert (forall h, include_history_resourceData
                        (snd (historyCleanupTick now d)) h
                      = include_history_resourceData d h) as Hinc
      by reflexivity.
    rewrite (map_ext _ _ Hinc). f_equal. f_equal.
    rewrite cleanup_history. apply filter_filter_implied. intros h.
    rewrite setMinutes_getMinutes.
    rewrite Z.leb_le. intros H. apply Z.geb_le in H. lia.
Qed.

(** ** Invariants of the store *)

Lemma NoDup_app_fresh {A : Type} (l : list A) (x : A) :
  NoDup l -> ~ In x l -> NoDup (l ++ [x]).
Proof.
  intros Hl Hx. apply NoDup_rev in Hl.
  rewrite <- (rev_involutive (l ++ [x])). apply NoDup_rev.
  rewrite rev_app_distr. cbn [rev app]. constructor; [| exact Hl].
  intros H. apply in_rev in H. contradiction.
Qed.

(** Deleting rows keeps their keys distinct. *)
Lemma keys_distinct_after_delete {Row Key : Type} (key : Row -> Key)
    (keep : Row -> bool) (rows : list Row)
    (Hdistinct : NoDup (map key rows)) :
  NoDup (map key (filter keep rows)).
Proof.
  induction rows as [| row rows IH]; [constructor |].
  cbn [map filter] in *. apply NoDup_cons_iff in Hdistinct.
  destruct Hdistinct as [Hfresh Hrest]. specialize (IH Hrest).
  destruct (keep row); [| exact IH].
  cbn [map]. apply NoDup_cons; [| exact IH].
  intros Hin. apply Hfresh. apply in_map_iff in Hin.
  destruct Hin as (other & Hkey & Hother). apply filter_In in Hother.
  apply in_map_iff. exists other. tauto.
Qed.

Lemma next_id_fresh (ids : list Z) : ~ In (next_id ids) ids.
Proof.
  intros H. apply next_id_above in H. lia.
Qed.

Lemma ChangeHistory_create_ok (now stock resourceId : Z)
    (changeType : option ChangeType) (d : db) :
  store_ok d -> store_ok (ChangeHistory_create now stock resourceId changeType d).
Proof.
  intros ((Hr & Hh) & Htype & Hres). unfold ChangeHistory_create.
  split; [split |]; cbn [resources change_history].
  - exact Hr.
  - rewrite map_app. cbn [map ChangeHistory.id].
    apply NoDup_app_fresh; [exact Hh | apply next_id_fresh].
  - split; [exact Htype | exact Hres].
Qed.

Lemma updated_store_ok (now q : Z) (resource : Resource.t) (d : db) :
  store_ok d -> store_ok (updated_store now q resource d).
Proof.
  intros Hok. unfold updated_store. apply ChangeHistory_create_ok.
  destruct Hok as ((Hr & Hh) & Htype & Hres).
  set (f := fun r : Resource.t =>
              if Resource.id r =?
                 Loaded.id (set_quantity (include_resourceData d resource) q)
              then {| Resource.id := Resource.id r;
                      Resource.quantity :=
                        Loaded.quantity
                          (set_quantity (include_resourceData d resource) q);
                      Resource.resourceDataId := Resource.resourceDataId r |}
              else r).
  assert (forall r, Resource.id (f r) = Resource.id r) as Hid
    by (intros r; unfold f; now destruct (Resource.id r =? _)).
  assert (forall r, Resource.resourceDataId (f r) = Resource.resourceDataId r)
    as Hty by (intros r; unfold f; now destruct (Resource.id r =? _)).
  unfold Resource_save. fold f.
  split; [split |]; unfold one_state_per_type, types_resolve;
    cbn [resources change_history].
  - rewrite map_map. now rewrite (map_ext _ _ Hid).
  - exact Hh.
  - split.
    + rewrite map_map. now rewrite (map_ext _ _ Hty).
    + intros r' Hin. apply in_map_iff in Hin. destruct Hin as (r & <- & Hin).
      rewrite Hty. exact (Hres r Hin).
Qed.

Lemma update_store_cases (faults : fault_plan) (now id : Z) (quantity : jsval)
    (d : db) :
  snd (updateQuantity faults now id quantity d) = d \/
  exists q resource,
    snd (updateQuantity faults now id quantity d)
    = updated_store now q resource d.
Proof.
  destruct (invalid_quantity quantity) eqn:Hinv.
  { left. now rewrite (updateQuantity_invalid faults now id quantity d Hinv). }
  destruct (valid_quantity_JNum _ Hinv) as (q & -> & Hq).
  destruct (findByPk_Resource id d) as [resource |] eqn:Hfind.
  - rewrite (updateQuantity_resolved faults now id q d resource Hfind Hq).
    destruct (faults AtSave || faults AtCreate || faults AtCommit);
      [now left | right; now exists q, resource].
  - left. unfold updateResourceQuantityService, findByPk_Resource_include.
    now rewrite Hinv, Hfind.
Qed.

Lemma create_store_cases (data : CreateData) (d : db) :
  snd (create data d) = d \/
  exists rdid q rd,
    findByPk_ResourceData rdid d = Some rd /\
    findOne_Resource_by_resourceDataId rdid d = None /\
    snd (create data d) = snd (Resource_create rdid q d).
Proof.
  destruct data as [rid quantity]. unfold createResourceService.
  cbn [cd_resourceDataId cd_quantity].
  destruct (js_not rid); [now left |].
  destruct (invalid_quantity quantity); [now left |].
  destruct (findByPk_ResourceData (js_number rid) d) as [rd |] eqn:Hcat;
    [| now left].
  destruct (findOne_Resource_by_resourceDataId (js_number rid) d) eqn:Hone;
    [now left |].
  right. exists (js_number rid), (js_number quantity), rd.
  split; [exact Hcat |]. split; [exact Hone |].
  destruct (Resource_create (js_number rid) (js_number quantity) d)
    as [row d'].
  destruct (findByPk_Resource_include (Resource.id row) d') as [loaded |];
    [| reflexivity].
  destruct (enrich loaded); reflexivity.
Qed.

Lemma Resource_create_ok (rdid q : Z) (rd : ResourceData.t) (d : db) :
  findByPk_ResourceData rdid d = Some rd ->
  findOne_Resource_by_resourceDataId rdid d = None ->
  store_ok d -> store_ok (snd (Resource_create rdid q d)).
Proof.
  intros Hcat Hone ((Hr & Hh) & Htype & Hres). unfold Resource_create.
  split; [split |]; unfold one_state_per_type, types_resolve;
    cbn [snd resources change_history].
  - rewrite map_app. cbn [map Resource.id].
    apply NoDup_app_fresh; [exact Hr | apply next_id_fresh].
  - exact Hh.
  - split.
    + rewrite map_app. cbn [map Resource.resourceDataId].
      apply NoDup_app_fresh; [exact Htype |].
      intros Hin. apply in_map_iff in Hin. destruct Hin as (r & Hty & Hin).
      unfold findOne_Resource_by_resourceDataId in Hone.
      apply (find_none _ _ Hone) in Hin. cbn in Hin.
      apply Z.eqb_neq in Hin. contradiction.
    + intros r Hin. apply in_app_or in Hin. destruct Hin as [Hin | [<- | []]].
      * exact (Hres r Hin).
      * cbn [Resource.resourceDataId]. unfold resolves_in_catalog.
        cbn [resource_data]. unfold findByPk_ResourceData in Hcat.
        apply find_some in Hcat. destruct Hcat as [Hin Heq].
        apply Z.eqb_eq in Heq. now exists rd.
Qed.

Lemma snapshot_ok (now : Z) (rs : list Loaded.t) (d : db) :
  store_ok d ->
  store_ok
    (fold_left
       (fun acc resource =>
          ChangeHistory_create now (Loaded.quantity resource)
            (Loaded.resourceDataId resource) None acc)
       rs d).
Proof.
  revert d. induction rs as [| r rs IH]; intros d Hok; cbn [fold_left].
  - exact Hok.
  - apply IH. now apply ChangeHistory_create_ok.
Qed.

(** X13.  Every operation that writes keeps the store well formed: when
    primary keys are unique, no two resource states share a type and
    every resource state references a catalog entry, the same holds after
    a quantity update (whatever its arguments and the faults of the
    store), after a creation, after a snapshot, after a retention sweep
    and after a manual history record. *)
Theorem store_ok_preserved (d : db) :
  store_ok d ->
  (forall faults now id quantity,
     store_ok (snd (updateQuantity faults now id quantity d))) /\
  (forall data, store_ok (snd (create data d))) /\
  (forall io now timestamp,
     store_ok (fst (resourceMonitoringTick io now timestamp d))) /\
  (forall now, store_ok (snd (historyCleanupTick now d))) /\
  (forall now data, store_ok (snd (createChangeHistoryService now data d))).
Proof.
  intros Hok. repeat match goal with |- _ /\ _ => split end.
  - intros faults now id quantity.
    destruct (update_store_cases faults now id quantity d)
      as [-> | (q & resource & ->)]; [exact Hok |].
    now apply updated_store_ok.
  - intros data.
    destruct (create_store_cases data d)
      as [-> | (rdid & q & rd & Hcat & Hone & ->)]; [exact Hok |].
    now apply (Resource_create_ok rdid q rd).
  - intros io now timestamp. unfold resourceMonitoringTick.
    destruct (Nat.eqb _ 0); [exact Hok |].
    destruct io; cbn [fst]; now apply snapshot_ok.
  - intros now. destruct Hok as ((Hr & Hh) & Htype & Hres).
    unfold historyCleanupTick.
    split; [split |]; unfold one_state_per_type, types_resolve;
      cbn [snd resources change_history]; auto.
    now apply keys_distinct_after_delete.
  - intros now data. unfold createChangeHistoryService.
    destruct (js_not (hd_stock data) || js_lt_zero (hd_stock data));
      [exact Hok |].
    destruct (js_not (hd_resourceId data)); [exact Hok |].
    destruct (findByPk_ResourceData (js_number (hd_resourceId data)) d);
      [| exact Hok].
    cbn [snd]. now apply ChangeHistory_create_ok.
Qed.

(** ** Controllers *)

Lemma map_outcome_In_result {A B : Type} (f : A -> outcome B) (l : list A)
    (vs : list B) (a : A) (v : B) :
  map_outcome f l = Returned vs -> In a l -> f a = Returned v -> In v vs.
Proof.
  revert vs. induction l as [| b l IH]; intros vs H Hin Ha; [contradiction |].
  destruct (map_outcome_cons _ _ _ _ H) as (w & vs' & Hb & Hl & ->).
  destruct Hin as [<- | Hin].
  - left. congruence.
  - right. exact (IH vs' Hl Hin Ha).
Qed.

(** The controller of the quantity update, by cases. *)
Lemma update_controller_cases (faults : fault_plan) (global_io : bool)
    (now timestamp id : Z) (quantity : jsval) (d : db) :
  updateResourceQuantityController faults global_io now
    timestamp id quantity d =
  if invalid_quantity quantity then
    ({| res_status := 400; res_resource := None |}, [], d)
  else
    match findByPk_Resource id d with
    | None => ({| res_status := 404; res_resource := None |}, [], d)
    | Some resource =>
      if faults AtSave || faults AtCreate || faults AtCommit then
        ({| res_status := 500; res_resource := None |}, [], d)
      else
        let d' := updated_store now (js_number quantity) resource d in
        match enrich (set_quantity (include_resourceData d resource)
                        (js_number quantity)) with
        | Thrown _ => ({| res_status := 500; res_resource := None |}, [], d')
        | Returned result =>
          if global_io then
            match listAll d' with
            | Thrown _ =>
              ({| res_status := 500; res_resource := None |}, [], d')
            | Returned allResources =>
              ({| res_status := 200; res_resource := Some result |},
               [ {| em_event := "resources:update";
                    em_resources := map WithLevels allResources;
                    em_count := None;
                    em_timestamp := timestamp |} ],
               d')
            end
          else ({| res_status := 200; res_resource := Some result |}, [], d')
        end
    end.
Proof.
  unfold updateResourceQuantityController.
  destruct (invalid_quantity quantity) eqn:Hinv.
  { now rewrite (updateQuantity_invalid faults now id quantity d Hinv). }
  destruct (valid_quantity_JNum _ Hinv) as (q & -> & Hq).
  destruct (findByPk_Resource id d) as [resource |] eqn:Hfind.
  - rewrite (updateQuantity_resolved faults now id q d resource Hfind Hq).
    destruct (faults AtSave || faults AtCreate || faults AtCommit);
      [reflexivity |].
    cbn [js_number].
    destruct (enrich (set_quantity (include_resourceData d resource) q));
      reflexivity.
  - unfold updateResourceQuantityService, findByPk_Resource_include.
    rewrite Hinv, Hfind. reflexivity.
Qed.

(** X14.  The controller of the quantity update broadcasts only after an
    update that was committed: whenever it emits, a socket server is set,
    it emits one [resources:update] event with the given timestamp and
    answers 200 with the view of the resource; the quantity sent is a
    number that is not negative and is stored for the resource in the
    store after the call; and the list of the event is what
    [getAllResourcesService] returns on that store and contains the view
    sent in the answer.  On a negative or absent quantity, and on an id
    that does not resolve, it emits nothing and leaves the store as it
    was. *)
Theorem update_controller_broadcast (faults : fault_plan) (global_io : bool)
    (now timestamp id : Z) (quantity : jsval) (d : db) :
  let r := updateResourceQuantityController faults
             global_io now timestamp id quantity d in
  let emits := snd (fst r) in
  let d' := snd r in
  (emits <> [] ->
   global_io = true /\ res_status (fst (fst r)) = 200 /\
   exists q resource e views,
     quantity = JNum q /\ 0 <= q /\
     findByPk_Resource id d = Some resource /\
     res_resource (fst (fst r)) = Some e /\ Enriched.quantity e = q /\
     findByPk_Resource id d' = Some (with_quantity resource q) /\
     listAll d' = Returned views /\ In e views /\
     emits = [ {| em_event := "resources:update";
                  em_resources := map WithLevels views;
                  em_count := None;
                  em_timestamp := timestamp |} ]) /\
  (negative_or_absent quantity \/ findByPk_Resource id d = None ->
   emits = [] /\ d' = d).
Proof.
  cbn zeta. rewrite update_controller_cases.
  rewrite <- invalid_quantity_iff.
  destruct (invalid_quantity quantity) eqn:Hinv.
  { cbn [fst snd]. split; [intros H; now contradiction H | auto]. }
  destruct (valid_quantity_JNum _ Hinv) as (q & -> & Hq). cbn [js_number].
  destruct (findByPk_Resource id d) as [resource |] eqn:Hfind.
  2:{ cbn [fst snd]. split; [intros H; now contradiction H | auto]. }
  assert (forall X : Prop, false = true \/ Some resource = None -> X) as Hno
    by (intros X [H | H]; discriminate).
  destruct (faults AtSave || faults AtCreate || faults AtCommit).
  { cbn [fst snd]. split; [intros H; now contradiction H | apply Hno]. }
  destruct (enrich (set_quantity (include_resourceData d resource) q))
    as [e | err] eqn:He.
  2:{ cbn [fst snd]. split; [intros H; now contradiction H | apply Hno]. }
  pose proof (findByPk_Resource_id _ _ _ Hfind) as Hid.
  assert (findByPk_Resource id (updated_store now q resource d)
          = Some (with_quantity resource q)) as Hnew.
  { rewrite findByPk_updated_store, Hfind. cbn [option_map].
    now rewrite Z.eqb_refl. }
  destruct (enrich_fields _ _ He) as (_ & _ & _ & _ & _ & Hqe & _).
  cbn [set_quantity Loaded.quantity] in Hqe.
  destruct global_io.
  2:{ cbn [fst snd]. split; [intros H; now contradiction H | apply Hno]. }
  destruct (listAll (updated_store now q resource d)) as [views | err]
    eqn:Hall.
  2:{ cbn [fst snd]. split; [intros H; now contradiction H | apply Hno]. }
  cbn [fst snd res_status res_resource]. split; [| apply Hno].
  intros _. split; [reflexivity |]. split; [reflexivity |].
  exists q, resource, e, views.
  repeat match goal with |- _ /\ _ => split end;
    try reflexivity; try assumption.
  unfold getAllResourcesService, findAll_Resource_include in Hall.
  apply (map_outcome_In_result _ _ _
           (include_resourceData (updated_store now q resource d)
              (with_quantity resource q)) e Hall).
  - apply in_map. unfold findByPk_Resource in Hnew.
    now apply find_some in Hnew.
  - rewrite (include_same_catalog d) by reflexivity. exact He.
Qed.

(** ** Bounds of the statistics *)






(** ** Sequences of writes *)

(** X18.  Two quantity updates of the same resource in a row, both
    without faults: the resource ends with the second quantity and the
    ledger gains two rows, in the order of the calls, under different
    ids.  The change direction of the second row is taken against the
    first quantity: an update to the quantity the resource already has
    still records a row, labelled "update". *)
Theorem two_updates_in_a_row (now1 now2 id q1 q2 : Z) (d : db)
    (resource : Resource.t) :
  findByPk_Resource id d = Some resource ->
  0 <= q1 -> 0 <= q2 ->
  let d1 := snd (updateQuantity no_fault now1 id (JNum q1) d) in
  let d2 := snd (updateQuantity no_fault now2 id (JNum q2) d1) in
  findByPk_Resource id d2 = Some (with_quantity resource q2) /\
  exists e1 e2,
    change_history d2 = change_history d ++ [e1; e2] /\
    ChangeHistory.id e1 <> ChangeHistory.id e2 /\
    ChangeHistory.stock e1 = q1 /\ ChangeHistory.createdAt e1 = now1 /\
    ChangeHistory.stock e2 = q2 /\ ChangeHistory.createdAt e2 = now2 /\
    (q1 < q2 -> ChangeHistory.changeType e2 = Some increase) /\
    (q2 < q1 -> ChangeHistory.changeType e2 = Some decrease) /\
    (q2 = q1 -> ChangeHistory.changeType e2 = Some update).
Proof.
  intros Hfind Hq1 Hq2. cbn zeta.
  pose proof (findByPk_Resource_id _ _ _ Hfind) as Hid.
  rewrite (updateQuantity_resolved no_fault now1 id q1 d resource Hfind Hq1).
  cbn [no_fault orb snd].
  assert (findByPk_Resource id (updated_store now1 q1 resource d)
          = Some (with_quantity resource q1)) as Hfind1.
  { rewrite findByPk_updated_store, Hfind. cbn [option_map].
    now rewrite Z.eqb_refl. }
  rewrite (updateQuantity_resolved no_fault now2 id q2 _ _ Hfind1 Hq2).
  cbn [no_fault orb snd]. split.
  - rewrite findByPk_updated_store, Hfind1. cbn [option_map].
    cbn [with_quantity Resource.id]. now rewrite Z.eqb_refl.
  - rewrite !change_history_updated_store. rewrite <- app_assoc.
    cbn [app]. eexists. eexists. split; [reflexivity |].
    cbn [ChangeHistory.id ChangeHistory.stock ChangeHistory.createdAt
         ChangeHistory.changeType with_quantity Resource.quantity].
    split.
    { rewrite map_app. cbn [map ChangeHistory.id].
      set (k := next_id (map ChangeHistory.id (change_history d))).
      assert (In k (map ChangeHistory.id (change_history d) ++ [k])) as Hk
        by (apply in_or_app; right; now left).
      apply next_id_above in Hk. lia. }
    unfold changeType_of.
    destruct (Z.gtb_spec q2 q1); destruct (Z.ltb_spec q2 q1);
      repeat split; intros; try lia; reflexivity.
Qed.







(** ** Connections *)

(** X20.  A socket that connects right after a quantity update answered
    with a broadcast is sent, in [resources:initial], the list that
    broadcast carried, with its length as count; and every connection is
    sent the welcome message first, whether or not the list can be
    loaded. *)
Theorem connection_sees_last_broadcast (faults : fault_plan)
    (now timestamp id : Z) (quantity : jsval) (d : db) (e : Emit)
    (t1 t2 : Z) :
  let r := updateResourceQuantityController faults true
             now timestamp id quantity d in
  In e (snd (fst r)) ->
  on_connection t1 t2 (snd r) =
  [ Welcome t1;
    Event {| em_event := "resources:initial";
             em_resources := em_resources e;
             em_count := Some (length (em_resources e));
             em_timestamp := t2 |} ] /\
  forall d0, hd_error (on_connection t1 t2 d0)
             = Some (Welcome t1).
Proof.
  cbn zeta. rewrite update_controller_cases. intros Hin.
  split; [| reflexivity].
  destruct (invalid_quantity quantity); [contradiction |].
  destruct (findByPk_Resource id d) as [resource |]; [| contradiction].
  destruct (faults AtSave || faults AtCreate || faults AtCommit);
    [contradiction |].
  cbn zeta in *.
  destruct (enrich _) as [v | err]; [| contradiction].
  unfold on_connection.
  destruct (listAll (updated_store now (js_number quantity) resource d))
    as [views | err] eqn:Hall; [| contradiction].
  cbn [fst snd] in *. destruct Hin as [<- | []].
  rewrite Hall. cbn [em_resources]. now rewrite length_map.
Qed.

End Store.

(** * Checks on the reference deployment *)

(** The example of the spec: the oxygen tank at 15000 is "normal"; updated
    to 4000 it is "critical", and one history row with stock 4000 is
    added. *)
Example oxygen_example :
  getAllResourcesService reference_levels sample_db
  = Returned [sample_view 15000 normal] /\
  updateResourceQuantityService reference_levels no_fault 70000 1 (JNum 4000)
    sample_db
  = (Returned (Value (sample_view 4000 critical)), sample_db_updated).
Proof. split; reflexivity. Qed.

(** With the levels of the README the critical level is above the minimum
    level in every category, so no quantity is ever "low". *)
Example reference_levels_never_low (category : string) (levels : Levels)
    (quantity : Z) :
  reference_levels category = Some levels ->
  status_of quantity levels <> low.
Proof.
  unfold reference_levels, status_of.
  repeat match goal with
         | |- context [String.eqb category ?c] =>
           destruct (String.eqb category c)
         end;
    intros H; inversion H; subst; clear H; cbn;
    repeat match goal with
           | |- context [?a <=? ?b] => destruct (Z.leb_spec a b)
           end;
    try discriminate; lia.
Qed.

(** C7.  One firing of the snapshot on a store with one tracked resource
    (the oxygen tank at 15000) and a socket server: one history row is
    appended for the resource and one broadcast is emitted with the
    timestamp, but the broadcast carries the plain loaded row, without
    levels and status, not the enriched list that [getAllResourcesService]
    gives for the store and that the quantity-update controller sends
    under the same event. *)
Theorem monitoring_broadcast_not_enriched :
  let fired := resourceMonitoringTick true 120000 120005 sample_db in
  change_history (fst fired) =
    change_history sample_db ++
    [ {| ChangeHistory.id := 3; ChangeHistory.stock := 15000;
         ChangeHistory.resourceId := 1; ChangeHistory.changeType := None;
         ChangeHistory.createdAt := 120000 |} ] /\
  snd fired =
    [ {| em_event := "resources:update";
         em_resources := [Plain sample_loaded];
         em_count := Some 1%nat;
         em_timestamp := 120005 |} ] /\
  getAllResourcesService reference_levels sample_db
  = Returned [sample_view 15000 normal] /\
  (forall e, In e (snd fired) ->
             em_resources e <> map WithLevels [sample_view 15000 normal]) /\
  snd (fst (updateResourceQuantityController reference_levels no_fault true
              120000 120005 1 (JNum 15000) sample_db))
  = [ {| em_event := "resources:update";
         em_resources := map WithLevels [sample_view 15000 normal];
         em_count := None;
         em_timestamp := 120005 |} ].
Proof.
  cbn zeta. split; [reflexivity |]. split; [reflexivity |].
  split; [reflexivity |]. split; [| reflexivity].
  intros e [<- | []]. cbn. discriminate.
Qed.

(** ** Where the code departs from the spec *)

(** Counterexample to C3.  The ledger holds one entry of the oxygen tank,
    written in the millisecond 70000 with stock 15000, and the tank is
    updated to 4000 in that same millisecond.  The store returns newest
    first, and rows with the same [createdAt] in the order it holds them.
    The update succeeds and the history query with limit 1 returns the
    older entry, whose stock is 15000. *)
Lemma update_then_newest_history_counterexample :
  (forall l, Permutation (held_order_DESC l) l) /\
  (forall l, StronglySorted not_before (held_order_DESC l)) /\
  findByPk_Resource 1 tied_db = Some sample_resource /\
  exists d' row,
    updateResourceQuantityService reference_levels no_fault 70000 1
      (JNum 4000) tied_db
    = (Returned (Value (sample_view 4000 critical)), d') /\
    getResourceHistoryService held_order_DESC 1 (Some 1%nat) d'
    = Value [row] /\
    HistoryRow.entry row = tied_entry /\
    ChangeHistory.stock (HistoryRow.entry row) = 15000 /\
    ChangeHistory.stock (HistoryRow.entry row) <> 4000.
Proof.
  split; [exact held_order_DESC_perm |].
  split; [exact held_order_DESC_sorted |].
  split; [reflexivity |].
  eexists. eexists. split; [reflexivity |].
  split; [reflexivity |]. split; [reflexivity |].
  split; [reflexivity |]. cbn. lia.
Qed.



(** Counterexample to C8.  The server keeps the time of New York, whose
    clocks went forward by an hour three weeks before the sweep.  The one row of the ledger
    was recorded exactly 30 times 24 hours before the sweep, and the sweep
    deletes it: the boundary the code computes lies one hour later. *)
Lemma history_cleanup_boundary_counterexample :
  In month_old_entry (change_history month_old_db) /\
  ChangeHistory.createdAt month_old_entry = sweep_time - 30 * 86400000 /\
  local_time_back new_york_spring sweep_time (30 * 86400000)
  = sweep_time - 30 * 86400000 + 3600000 /\
  historyCleanupTick new_york_spring sweep_time month_old_db =
  (1%nat,
   {| resource_data := resource_data month_old_db;
      resources := resources month_old_db;
      change_history := [] |}).
Proof.
  split; [left; reflexivity |]. split; [reflexivity |].
  split; reflexivity.
Qed.

(** ** Instances of the theorems on the sample store *)

Lemma updateQuantity_atomic_witness :
  findByPk_Resource 1 sample_db = Some sample_resource /\
  0 <= 4000 /\
  updateResourceQuantityService reference_levels fault_at_create 70000 1
    (JNum 4000) sample_db
  = (Thrown StorageFault, sample_db) /\
  updateResourceQuantityService reference_levels fault_at_commit 70000 1
    (JNum 4000) sample_db
  = (Thrown TransactionFinished, sample_db).
Proof.
  assert (0 <= 4000) as Hq by lia.
  split; [reflexivity |]. split; [exact Hq |]. split.
  - destruct (updateQuantity_atomic reference_levels fault_at_create 70000 1
                4000 sample_db sample_resource eq_refl Hq)
      as (_ & _ & Hwrite & _).
    apply Hwrite. right. reflexivity.
  - destruct (updateQuantity_atomic reference_levels fault_at_commit 70000 1
                4000 sample_db sample_resource eq_refl Hq)
      as (_ & _ & _ & Hcommit).
    apply Hcommit; reflexivity.
Defined.

Lemma status_three_bands_witness :
  Loaded.resourceData sample_loaded = Some oxygen_tank /\
  reference_levels (ResourceData.category oxygen_tank) = Some oxygen_levels /\
  exists e,
    enrichResourceWithLevels reference_levels sample_loaded = Returned e /\
    Enriched.status e = normal.
Proof.
  split; [reflexivity |]. split; [reflexivity |].
  destruct (status_three_bands reference_levels sample_loaded oxygen_tank
              oxygen_levels eq_refl eq_refl)
    as (e & He & _ & _ & _ & _ & Hnormal & _).
  exists e. split; [exact He |]. apply Hnormal. cbn. lia.
Defined.

Lemma update_then_newest_history_witness :
  findByPk_Resource 1 sample_db = Some sample_resource /\
  updateResourceQuantityService reference_levels no_fault 70000 1 (JNum 4000)
    sample_db
  = (Returned (Value (sample_view 4000 critical)), sample_db_updated) /\
  (forall h, In h (change_history sample_db) ->
             ChangeHistory.resourceId h = 1 ->
             ChangeHistory.createdAt h < 70000) /\
  exists row,
    getResourceHistoryService stable_order_DESC 1 (Some 1%nat)
      sample_db_updated = Value [row] /\
    ChangeHistory.stock (HistoryRow.entry row) = 4000 /\
    ChangeHistory.changeType (HistoryRow.entry row) = Some decrease.
Proof.
  assert (forall h, In h (change_history sample_db) ->
                    ChangeHistory.resourceId h = 1 ->
                    ChangeHistory.createdAt h < 70000) as Hclock.
  { intros h [<- | [<- | []]] _; cbn; lia. }
  split; [reflexivity |]. split; [reflexivity |]. split; [exact Hclock |].
  destruct (update_then_newest_history stable_order_DESC reference_levels
              stable_order_DESC_perm stable_order_DESC_sorted
              no_fault 70000 1 4000
              sample_db sample_db_updated sample_resource
              (sample_view 4000 critical) eq_refl eq_refl Hclock)
    as (row & Hrow & Hstock & _ & _ & Hdec & _).
  exists row. split; [exact Hrow |]. split; [exact Hstock |].
  apply Hdec. cbn. lia.
Defined.




Lemma history_cleanup_boundary_witness :
  In sample_entry_1 (change_history sample_db) /\
  ChangeHistory.createdAt sample_entry_1
  = local_time_back utc_zone 2592001000 (30 * 86400000) /\
  In sample_entry_1
     (change_history (snd (historyCleanupTick utc_zone 2592001000 sample_db))).
Proof.
  assert (In sample_entry_1 (change_history sample_db)) as Hin
    by (left; reflexivity).
  split; [exact Hin |]. split; [reflexivity |].
  destruct (history_cleanup_boundary utc_zone 2592001000 sample_db)
    as (_ & _ & Hboundary & _).
  apply Hboundary; [exact Hin | reflexivity].
Defined.

Lemma history_query_catalog_check_witness :
  resolves_in_catalog 1 sample_db /\
  exists rows,
    getResourceHistoryService stable_order_DESC 1 None sample_db
    = Value rows /\
    (length rows <= 100)%nat /\
    StronglySorted not_before (map HistoryRow.entry rows).
Proof.
  assert (resolves_in_catalog 1 sample_db) as Hres.
  { exists oxygen_tank. split; [left; reflexivity | reflexivity]. }
  split; [exact Hres |].
  destruct (history_query_catalog_check utc_zone stable_order_ASC
              stable_order_DESC stable_order_DESC_perm
              stable_order_DESC_sorted 1 None sample_db)
    as (_ & _ & Hrows & _).
  destruct (Hrows Hres) as (rows & rest & Heq & Hlen & Hsorted & _).
  exists rows. split; [exact Heq |]. split; [exact Hlen | exact Hsorted].
Defined.

Lemma quantity_validation_witness :
  findByPk_Resource 1 sample_db = Some sample_resource /\
  findByPk_Resource 1
    (snd (updateResourceQuantityService reference_levels no_fault 70000 1
            (JNum 0) sample_db))
  = Some (with_quantity sample_resource 0).
Proof.
  split; [reflexivity |].
  destruct (quantity_validation reference_levels) as (_ & _ & _ & Hzero & _).
  apply (Hzero 70000 1 sample_db sample_resource eq_refl).
Defined.

(** ** Instances of the further properties *)

Lemma getById_after_update_witness :
  updateResourceQuantityService reference_levels no_fault 70000 1 (JNum 4000)
    sample_db
  = (Returned (Value (sample_view 4000 critical)), sample_db_updated) /\
  getResourceByIdService reference_levels 1 sample_db_updated
  = Returned (Some (sample_view 4000 critical)).
Proof.
  split; [reflexivity |].
  apply (getById_after_update reference_levels no_fault 70000 1 (JNum 4000)
           sample_db sample_db_updated (sample_view 4000 critical) eq_refl).
Defined.

Lemma create_then_read_and_conflict_witness :
  createResourceService reference_levels
    {| cd_resourceDataId := JNum 2; cd_quantity := JNum 60 |} sample_db
  = (Returned (Value sample_water_view), sample_db_two) /\
  invalid_quantity (JNum 7) = false /\
  createResourceService reference_levels
    {| cd_resourceDataId := JNum 2; cd_quantity := JNum 7 |} sample_db_two
  = (Returned (Sentinel "RESOURCE_ALREADY_EXISTS"), sample_db_two).
Proof.
  split; [reflexivity |]. split; [reflexivity |].
  apply (create_then_read_and_conflict reference_levels
           {| cd_resourceDataId := JNum 2; cd_quantity := JNum 60 |}
           sample_db sample_db_two sample_water_view eq_refl);
    reflexivity.
Defined.

Lemma getById_agrees_with_list_witness :
  getAllResourcesService reference_levels sample_db_two
  = Returned [sample_view 15000 normal; sample_water_view] /\
  getResourceByIdService reference_levels 2 sample_db_two
  = Returned (Some sample_water_view).
Proof.
  split; [reflexivity |].
  apply (getById_agrees_with_list reference_levels sample_db_two
           [sample_view 15000 normal; sample_water_view] eq_refl 2).
Defined.

Lemma critical_filters_list_witness :
  (forall quantity category levels,
     reference_levels category = Some levels ->
     reference_isResourceCritical quantity category
     = (quantity <=? lv_criticalLevel levels)) /\
  getAllResourcesService reference_levels sample_db_two
  = Returned [sample_view 15000 normal; sample_water_view] /\
  getCriticalResourcesService reference_levels reference_isResourceCritical
    sample_db_two
  = Returned [sample_water_view].
Proof.
  assert (forall quantity category levels,
            reference_levels category = Some levels ->
            reference_isResourceCritical quantity category
            = (quantity <=? lv_criticalLevel levels)) as Hcrit.
  { intros quantity category levels H. unfold reference_isResourceCritical.
    rewrite H. reflexivity. }
  split; [exact Hcrit |]. split; [reflexivity |].
  apply (critical_filters_list reference_levels reference_isResourceCritical
           sample_db_two [sample_view 15000 normal; sample_water_view]
           Hcrit eq_refl).
Defined.

Lemma sample_db_two_types_resolve : types_resolve sample_db_two.
Proof.
  intros r [<- | [<- | []]].
  - exists oxygen_tank. split; [left; reflexivity | reflexivity].
  - exists water_tank. split; [right; left; reflexivity | reflexivity].
Defined.

Lemma sample_db_two_ok : store_ok sample_db_two.
Proof.
  split; [split |]; [| | split].
  - cbn. repeat constructor; cbn; intuition discriminate.
  - cbn. repeat constructor; cbn; intuition discriminate.
  - unfold one_state_per_type. cbn.
    repeat constructor; cbn; intuition discriminate.
  - exact sample_db_two_types_resolve.
Defined.

Lemma listAll_returns_witness :
  types_resolve sample_db_two /\
  (forall rd, In rd (resource_data sample_db_two) ->
              reference_levels (ResourceData.category rd) <> None) /\
  exists views,
    getAllResourcesService reference_levels sample_db_two = Returned views /\
    length views = 2%nat.
Proof.
  assert (forall rd, In rd (resource_data sample_db_two) ->
                     reference_levels (ResourceData.category rd) <> None)
    as Hlv.
  { intros rd [<- | [<- | []]]; cbn; discriminate. }
  split; [exact sample_db_two_types_resolve |]. split; [exact Hlv |].
  destruct (listAll_returns reference_levels sample_db_two
              sample_db_two_types_resolve Hlv) as (views & Hall & Hlen & _).
  exists views. split; [exact Hall | exact Hlen].
Defined.


Lemma update_keeps_other_history_witness :
  findByPk_Resource 1 sample_db = Some sample_resource /\
  2 <> Resource.resourceDataId sample_resource /\
  getResourceHistoryService stable_order_DESC 2 None
    (snd (updateResourceQuantityService reference_levels no_fault 70000 1
            (JNum 4000) sample_db))
  = getResourceHistoryService stable_order_DESC 2 None sample_db.
Proof.
  assert (2 <> Resource.resourceDataId sample_resource) as Hne
    by (cbn; lia).
  split; [reflexivity |]. split; [exact Hne |].
  apply (update_keeps_other_history stable_order_DESC reference_levels
           no_fault 70000 1
           (JNum 4000) sample_db sample_resource 2 None eq_refl Hne).
Defined.

Lemma store_ok_preserved_witness :
  store_ok sample_db_two /\
  store_ok (fst (resourceMonitoringTick true 120000 120005 sample_db_two)).
Proof.
  split; [exact sample_db_two_ok |].
  apply (store_ok_preserved utc_zone reference_levels sample_db_two
           sample_db_two_ok).
Defined.

Lemma recentHistory_window_witness :
  (forall l, Permutation (stable_order_DESC l) l) /\
  (forall l, StronglySorted not_before (stable_order_DESC l)) /\
  map HistoryRow.entry
    (getRecentHistoryService utc_zone stable_order_DESC 120000 (Some 1)
       sample_db)
  = [sample_entry_2] /\
  forall h,
    In h (map HistoryRow.entry
            (getRecentHistoryService utc_zone stable_order_DESC 120000
               (Some 1) sample_db)) <->
    In h (change_history sample_db) /\ 60000 <= ChangeHistory.createdAt h.
Proof.
  split; [exact stable_order_DESC_perm |].
  split; [exact stable_order_DESC_sorted |].
  split; [reflexivity |].
  destruct (recentHistory_window utc_zone stable_order_DESC
              stable_order_DESC_perm stable_order_DESC_sorted
              120000 (Some 1) sample_db)
    as (_ & _ & Hin & _).
  exact Hin.
Defined.


Lemma two_updates_in_a_row_witness :
  findByPk_Resource 1 sample_db = Some sample_resource /\
  0 <= 4000 /\ 0 <= 9000 /\
  findByPk_Resource 1
    (snd (updateResourceQuantityService reference_levels no_fault 80000 1
            (JNum 9000)
            (snd (updateResourceQuantityService reference_levels no_fault
                    70000 1 (JNum 4000) sample_db))))
  = Some (with_quantity sample_resource 9000).
Proof.
  assert (0 <= 4000) as H1 by lia.
  assert (0 <= 9000) as H2 by lia.
  split; [reflexivity |]. split; [exact H1 |]. split; [exact H2 |].
  apply (two_updates_in_a_row reference_levels 70000 80000 1 4000 9000
           sample_db sample_resource eq_refl H1 H2).
Defined.


Lemma connection_sees_last_broadcast_witness :
  In {| em_event := "resources:update";
        em_resources := [WithLevels (sample_view 4000 critical)];
        em_count := None;
        em_timestamp := 70001 |}
     (snd (fst (updateResourceQuantityController reference_levels no_fault
                  true 70000 70001 1 (JNum 4000) sample_db))) /\
  on_connection reference_levels 70002 70003 sample_db_updated =
  [ Welcome 70002;
    Event {| em_event := "resources:initial";
             em_resources := [WithLevels (sample_view 4000 critical)];
             em_count := Some 1%nat;
             em_timestamp := 70003 |} ].
Proof.
  assert (In {| em_event := "resources:update";
                em_resources := [WithLevels (sample_view 4000 critical)];
                em_count := None;
                em_timestamp := 70001 |}
             (snd (fst (updateResourceQuantityController reference_levels
                          no_fault true 70000 70001 1 (JNum 4000) sample_db))))
    as Hin by (left; reflexivity).
  split; [exact Hin |].
  apply (connection_sees_last_broadcast reference_levels no_fault 70000 70001
           1 (JNum 4000) sample_db _ 70002 70003 Hin).
Defined.
